(** * simplemongo: the Document model of [simplemongo/models.py]

    A shallow embedding of the change-tracking document wrapper.  Document
    content is a finite map from field names to Python values, the methods
    of [Document] are programs in a small state-and-exception monad over
    the instance and the storage it is bound to, and the aliasing between
    the snapshot [_raw] and the live content is studied separately on an
    explicit object store (module [Aliasing]). *)

From Stdlib Require Import ZArith NArith String List Bool Lia.
From stdpp Require Import gmap strings list fin_maps.

Set Warnings "-register-all".

Open Scope Z_scope.
Open Scope string_scope.

(** ** Python values *)

(** The values a document holds.  [VOid] is a [bson.objectid.ObjectId];
    a nested dictionary keeps its items as an association list.  The
    module is Python 2 code ([unicode], [__metaclass__]), which has two
    integer types: [VInt z] is an [int], kept in a machine word, and
    [VLong z] is a [long] of any size.  Floating-point numbers are left
    out. *)
Inductive value : Type :=
| VNone
| VBool (b : bool)
| VInt (z : Z)
| VLong (z : Z)
| VStr (s : string)
| VOid (n : N)
| VList (vs : list value)
| VDict (kvs : list (string * value)).

(** [sys.maxint] of a 64-bit build of CPython 2: an [int] lies between
    [-maxint - 1] and [maxint]. *)
Definition maxint : Z := 9223372036854775807.

Definition int_range (z : Z) : bool :=
  Z.leb (- maxint - 1) z && Z.leb z maxint.

(** The classes [isinstance] is asked about. *)
Inductive pytype : Type :=
| TNoneType | TBool | TInt | TLong | TStr | TObjectId | TList | TDict.

(** [isinstance(v, t)]; [bool] is a subclass of [int], and [long] is
    not.  A number that does not fit a machine word is a [long] under
    either constructor. *)
Definition isinstance (v : value) (t : pytype) : bool :=
  match v, t with
  | VNone, TNoneType => true
  | VBool _, TBool => true
  | VBool _, TInt => true
  | VInt z, TInt => int_range z
  | VInt z, TLong => negb (int_range z)
  | VLong _, TLong => true
  | VStr _, TStr => true
  | VOid _, TObjectId => true
  | VList _, TList => true
  | VDict _, TDict => true
  | _, _ => false
  end.

(** The number an instance of [int] stands for, [None] for any other
    value, a [long] among them: [as_int v = Some z] exactly when
    [isinstance(v, int)]. *)
Definition as_int (v : value) : option Z :=
  match v with
  | VInt z => if int_range z then Some z else None
  | VBool b => Some (Z.b2z b)
  | _ => None
  end.

(** The number a numeric value stands for, whatever its type. *)
Definition number (v : value) : option Z :=
  match v with
  | VInt z | VLong z => Some z
  | VBool b => Some (Z.b2z b)
  | _ => None
  end.

(** The result of arithmetic on instances of [int]: an [int] when the
    number fits, a [long] when it does not. *)
Definition of_number (z : Z) : value :=
  if int_range z then VInt z else VLong z.

(** [a - b] on two instances of [int] that stand for [x] and [y]. *)
Definition int_sub (x y : Z) : value := of_number (x - y).

Fixpoint assoc (k : string) (kvs : list (string * value)) : option value :=
  match kvs with
  | [] => None
  | (k', v) :: rest => if String.eqb k k' then Some v else assoc k rest
  end.

(** Python's [==] on values: numbers compare by value ([True == 1]),
    lists element by element, dictionaries item by item whatever the
    order of their items. *)
Fixpoint py_eq (a b : value) {struct a} : bool :=
  match a, b with
  | VNone, VNone => true
  | VBool x, VBool y => Bool.eqb x y
  | VBool x, VInt y | VBool x, VLong y => Z.eqb (Z.b2z x) y
  | VInt x, VBool y | VLong x, VBool y => Z.eqb x (Z.b2z y)
  | VInt x, VInt y | VInt x, VLong y
  | VLong x, VInt y | VLong x, VLong y => Z.eqb x y
  | VStr x, VStr y => String.eqb x y
  | VOid x, VOid y => N.eqb x y
  | VList xs, VList ys =>
      (fix eq_items (xs ys : list value) {struct xs} : bool :=
         match xs, ys with
         | [], [] => true
         | x :: xs', y :: ys' => py_eq x y && eq_items xs' ys'
         | _, _ => false
         end) xs ys
  | VDict xs, VDict ys =>
      Nat.eqb (length xs) (length ys) &&
      (fix eq_entries (xs : list (string * value)) {struct xs} : bool :=
         match xs with
         | [] => true
         | (k, x) :: xs' =>
             match assoc k ys with
             | Some y => py_eq x y
             | None => false
             end && eq_entries xs'
         end) xs
  | _, _ => false
  end.

(** The content of a mapping object: field name to value. *)
Abbreviation dict := (gmap string value).

(** ** Exceptions and results *)

Inductive violation : Type := Missing | Mismatch.

Inductive exn : Type :=
| AssertionError (msg : string)
| KeyError (key : string)
| ValueError (msg : string)
| StopIteration
| StructError (msg : string)
| ValidationError (offending : list (string * violation))
| SimplemongoException (msg : string)
| ObjectNotFound (msg : string)
| MultipleObjectsReturned (msg : string)
| ConnectionFailure.

Inductive outcome (A : Type) : Type :=
| Ok (a : A)
| Raise (e : exn).
Arguments Ok {A} a.
Arguments Raise {A} e.

Definition obind {A B} (r : outcome A) (k : A -> outcome B) : outcome B :=
  match r with
  | Ok a => k a
  | Raise e => Raise e
  end.

Declare Scope outcome_scope.
Delimit Scope outcome_scope with outcome.
Notation "x <~ c ;; k" := (obind c (fun x => k))
  (at level 100, c at next level, right associativity) : outcome_scope.

(** [m[k]] on a mapping. *)
Definition getitem (m : dict) (k : string) : outcome value :=
  match m !! k with
  | Some v => Ok v
  | None => Raise (KeyError k)
  end.

(** ** Structural diff *)

(** What [diff_dicts] returns: the entries under ['+'], ['~'] and ['-']. *)
Record Diff : Type := {
  diff_added : dict;
  diff_changed : dict;
  diff_removed : gset string
}.

(** Modelled from the spec: [diff_dicts] of [simplemongo/dstruct.py],
    which is not among the sources.  Section 4.1: [added] holds the keys
    of [current] that [baseline] lacks, with [current]'s values; [changed]
    the keys of both whose values differ by equality, with [current]'s
    values; [removed] the keys of [baseline] that [current] lacks. *)
Definition diff_dicts (current baseline : dict) : Diff :=
  {| diff_added :=
       map_imap (fun k v =>
                   match baseline !! k with
                   | None => Some v
                   | Some _ => None
                   end) current;
     diff_changed :=
       map_imap (fun k v =>
                   match baseline !! k with
                   | Some w => if py_eq v w then None else Some v
                   | None => None
                   end) current;
     diff_removed := dom baseline ∖ dom current |}.

(** ** Update instructions *)

(** The dictionary [changes] builds: each of the keys [$set], [$inc] and
    [$unset] is either absent or bound. *)
Record ChangeSet : Type := {
  cs_set : option dict;
  cs_inc : option dict;
  cs_unset : option (gset string)
}.

Definition cs_empty : ChangeSet :=
  {| cs_set := None; cs_inc := None; cs_unset := None |}.

(** Truth value of the dictionary: it has at least one key. *)
Definition cs_truthy (c : ChangeSet) : bool :=
  match cs_set c, cs_inc c, cs_unset c with
  | None, None, None => false
  | _, _, _ => true
  end.

(** The entries under a key, none when the key is absent. *)
Definition set_of (c : ChangeSet) : dict := default ∅ (cs_set c).
Definition inc_of (c : ChangeSet) : dict := default ∅ (cs_inc c).
Definition unset_of (c : ChangeSet) : gset string := default ∅ (cs_unset c).

(** [c.setdefault('$set', {})[i] = v] and the same for ['$inc']. *)
Definition set_entry (i : string) (v : value) (c : ChangeSet) : ChangeSet :=
  {| cs_set := Some (<[i := v]> (set_of c));
     cs_inc := cs_inc c;
     cs_unset := cs_unset c |}.

Definition inc_entry (i : string) (v : value) (c : ChangeSet) : ChangeSet :=
  {| cs_set := cs_set c;
     cs_inc := Some (<[i := v]> (inc_of c));
     cs_unset := cs_unset c |}.

(** ** Documents *)

(** The state of one [Document] instance: its own mapping content and the
    attributes [_raw], [_in_db] and [_history]. *)
Record Document : Type := {
  fields : dict;
  _raw : option dict;
  _in_db : bool;
  _history : option dict
}.

(** [copy.deepcopy] of a mapping.  Values of this embedding are trees
    without sharing, so the copy is the content itself; what the copy
    shares with its source is the subject of module [Aliasing]. *)
Definition deepcopy (m : dict) : dict := m.

(** One round of the loop of [changes] over [diff['~']]. *)
Definition changes_step (self raw : dict) (c : ChangeSet) (i : string)
  : outcome ChangeSet :=
  (a <~ getitem self i ;;
   match as_int a with
   | Some x =>
       b <~ getitem raw i ;;
       match as_int b with
       | Some y => Ok (inc_entry i (int_sub x y) c)
       | None => Ok (set_entry i a c)
       end
   | None => Ok (set_entry i a c)
   end)%outcome.

Fixpoint changes_loop (self raw : dict) (c : ChangeSet) (keys : list string)
  : outcome ChangeSet :=
  match keys with
  | [] => Ok c
  | i :: rest =>
      (c' <~ changes_step self raw c i ;; changes_loop self raw c' rest)%outcome
  end.

(** Truth value of a mapping and of a set: non-empty. *)
Definition dict_truthy (m : dict) : bool := negb (bool_decide (m = ∅)).
Definition set_truthy (s : gset string) : bool := negb (bool_decide (s = ∅)).

(** [Document.changes].  [not self._raw] holds for a missing snapshot and
    for an empty one. *)
Definition changes (d : Document) : outcome (option ChangeSet) :=
  match _raw d with
  | None => Ok None
  | Some raw =>
      if negb (dict_truthy raw) then Ok None
      else
        let diff := diff_dicts (fields d) raw in
        let c0 :=
          if dict_truthy (diff_added diff)
          then {| cs_set := Some (diff_added diff);
                  cs_inc := None; cs_unset := None |}
          else cs_empty in
        (c1 <~ changes_loop (fields d) raw c0 (map_to_list (diff_changed diff)).*1 ;;
         Ok (Some (if set_truthy (diff_removed diff)
                   then {| cs_set := cs_set c1; cs_inc := cs_inc c1;
                           cs_unset := Some (diff_removed diff) |}
                   else c1)))%outcome
  end.

(** The scenario of the specification: load [{count: 5, tag: "x"}], set
    [count] to 7, delete [tag], add [flag]. *)
Definition scenario_doc : Document :=
  {| fields := <["flag" := VBool true]> (<["count" := VInt 7]> ∅);
     _raw := Some (<["tag" := VStr "x"]> (<["count" := VInt 5]> ∅));
     _in_db := true;
     _history := None |}.

(** ** The storage the documents are bound to *)

(** The calls a document makes on its [pymongo] collection. *)
Inductive request : Type :=
| ReqSave (to_save : dict) (options : dict)
| ReqRemove (spec_or_id : value) (options : dict)
| ReqUpdate (spec : dict) (document : ChangeSet) (options : dict)
| ReqFind (spec : dict).

(** An in-memory stand-in for the collection [col]: the stored records,
    the calls received so far (oldest first), and whether the server
    answers; a call on a server that does not answer raises
    [ConnectionFailure] and stores nothing. *)
Record Collection : Type := {
  records : list dict;
  journal : list request;
  reachable : bool
}.

(** What lies outside the instance: its collection and the source of
    fresh [ObjectId]s. *)
Record World : Type := {
  col : Collection;
  oid_counter : N
}.

Record State : Type := {
  self : Document;
  world : World
}.

(** ** State and exceptions *)

(** A computation over a state [S]: it ends with a value or with an
    exception, and in both cases leaves a state behind (what was assigned
    before a [raise] stays assigned). *)
Definition ST (S A : Type) : Type := S -> outcome A * S.

Definition ret {S A} (a : A) : ST S A := fun s => (Ok a, s).

Definition bind {S A B} (m : ST S A) (k : A -> ST S B) : ST S B :=
  fun s =>
    match m s with
    | (Ok a, s') => k a s'
    | (Raise e, s') => (Raise e, s')
    end.

Definition raise {S A} (e : exn) : ST S A := fun s => (Raise e, s).

Definition gets {S A} (f : S -> A) : ST S A := fun s => (Ok (f s), s).

Definition modify {S} (f : S -> S) : ST S unit := fun s => (Ok tt, f s).

(** [try: m except StopIteration: handler]. *)
Definition except_StopIteration {S A} (m handler : ST S A) : ST S A :=
  fun s =>
    match m s with
    | (Raise StopIteration, s') => handler s'
    | r => r
    end.

Declare Scope st_scope.
Delimit Scope st_scope with st.
Notation "x <- c ;; k" := (bind c (fun x => k))
  (at level 100, c at next level, right associativity) : st_scope.
Notation "c ;; k" := (bind c (fun _ => k))
  (at level 100, right associativity) : st_scope.
Open Scope st_scope.

Abbreviation M := (ST State).

Definition on_world {A} (m : ST World A) : M A :=
  fun s =>
    let (r, w) := m (world s) in
    (r, {| self := self s; world := w |}).

Definition on_col {A} (m : ST Collection A) : ST World A :=
  fun w =>
    let (r, c) := m (col w) in
    (r, {| col := c; oid_counter := oid_counter w |}).

Definition with_self (f : Document -> Document) : M unit :=
  modify (fun s => {| self := f (self s); world := world s |}).

Definition set_fields (m : dict) (d : Document) : Document :=
  {| fields := m; _raw := _raw d; _in_db := _in_db d; _history := _history d |}.
Definition set_raw (r : option dict) (d : Document) : Document :=
  {| fields := fields d; _raw := r; _in_db := _in_db d; _history := _history d |}.
Definition set_in_db (b : bool) (d : Document) : Document :=
  {| fields := fields d; _raw := _raw d; _in_db := b; _history := _history d |}.
Definition set_history (h : option dict) (d : Document) : Document :=
  {| fields := fields d; _raw := _raw d; _in_db := _in_db d; _history := h |}.

(** [self[k]], [self[k] = v], [k in self], [self.clear()],
    [self.update(m)]. *)
Definition self_getitem (k : string) : M value :=
  fun s => (getitem (fields (self s)) k, s).
Definition self_setitem (k : string) (v : value) : M unit :=
  with_self (fun d => set_fields (<[k := v]> (fields d)) d).
Definition self_contains (k : string) : M bool :=
  gets (fun s => bool_decide (is_Some (fields (self s) !! k))).
Definition self_clear : M unit := with_self (set_fields ∅).
Definition self_update (m : dict) : M unit :=
  with_self (fun d => set_fields (m ∪ fields d) d).

(** [ObjectId()]: a value no earlier call returned. *)
Definition ObjectId_new : ST World value :=
  fun w => (Ok (VOid (oid_counter w)),
            {| col := col w; oid_counter := N.succ (oid_counter w) |}).

(** *** The collection's operations *)

Definition received (q : request) : ST Collection unit :=
  modify (fun c => {| records := records c;
                      journal := journal c ++ [q];
                      reachable := reachable c |}).

Definition answering : ST Collection unit :=
  fun c => if reachable c then (Ok tt, c) else (Raise ConnectionFailure, c).

Definition set_records (rs : list dict) : ST Collection unit :=
  modify (fun c => {| records := rs; journal := journal c;
                      reachable := reachable c |}).

(** A record satisfies a query document when it has every field of the
    query with an equal value. *)
Definition matches (spec record : dict) : bool :=
  forallb (fun kv => match record !! kv.1 with
                     | Some w => py_eq w kv.2
                     | None => false
                     end) (map_to_list spec).

Fixpoint upsert (spec doc : dict) (rs : list dict) : list dict :=
  match rs with
  | [] => [doc]
  | r :: rest => if matches spec r then doc :: rest else r :: upsert spec doc rest
  end.

(** The effect of an update document on one record; [$inc] adds to a
    number of either integer type. *)
Definition apply_update (c : ChangeSet) (r : dict) : dict :=
  let r1 := set_of c ∪ r in
  let r2 := merge (fun old by_ =>
                     match old, by_ with
                     | Some o, Some b =>
                         match number o, number b with
                         | Some x, Some y => Some (of_number (x + y))
                         | _, _ => Some o
                         end
                     | None, Some b => Some b
                     | o, None => o
                     end) r1 (inc_of c) in
  filter (fun kv => kv.1 ∉ unset_of c) r2.

Fixpoint update_first (spec : dict) (c : ChangeSet) (rs : list dict) : list dict :=
  match rs with
  | [] => []
  | r :: rest =>
      if matches spec r then apply_update c r :: rest
      else r :: update_first spec c rest
  end.

(** [col.save(to_save, **options)] on a document that carries an [_id]:
    the record of that [_id] is replaced, or the document is stored as a
    new record, and the [_id] is returned. *)
Definition Collection_save (to_save : dict) (_id : value) (options : dict)
  : ST Collection value :=
  received (ReqSave to_save options) ;;
  answering ;;
  rs <- gets records ;;
  set_records (upsert {["_id" := _id]} to_save rs) ;;
  ret _id.

(** [col.remove(_id, **options)]. *)
Definition Collection_remove (_id : value) (options : dict) : ST Collection unit :=
  received (ReqRemove _id options) ;;
  answering ;;
  rs <- gets records ;;
  set_records (List.filter (fun r => negb (matches {["_id" := _id]} r)) rs).

(** [col.update(spec, document, **options)] with [multi] false: the
    first matching record is updated; the count of updated records is
    returned. *)
Definition Collection_update (spec : dict) (document : ChangeSet) (options : dict)
  : ST Collection value :=
  received (ReqUpdate spec document options) ;;
  answering ;;
  rs <- gets records ;;
  set_records (update_first spec document rs) ;;
  ret (VDict [("n", VInt (if existsb (matches spec) rs then 1 else 0))]).

(** Modelled from the spec: [Cursor] of [simplemongo/cursor.py], which is
    not among the sources.  Section 6, [queryOne(filter)]: [next()] on a
    cursor over [spec] yields the first stored record that satisfies
    [spec] and raises [StopIteration] when there is none. *)
Definition Cursor_next (spec : dict) : ST Collection dict :=
  received (ReqFind spec) ;;
  answering ;;
  rs <- gets records ;;
  match List.filter (matches spec) rs with
  | r :: _ => ret r
  | [] => raise StopIteration
  end.

(** ** Document types and validation *)

(** The declared shape of a document type: for each declared field the
    acceptable classes ([None] when the field has no type constraint),
    and the names of the required and of the strict fields. *)
Record Struct : Type := {
  struct_fields : list (string * option (list pytype));
  required_fields : list string;
  strict_fields : list string
}.

(** What a subclass of [Document] fixes: its [struct] and the class
    attributes [__validate__] and [__write_concern__]. *)
Record DocClass : Type := {
  struct : Struct;
  __validate__ : bool;
  __write_concern__ : dict
}.

(** The class attributes as [Document] declares them. *)
Definition Document_class (s : Struct) : DocClass :=
  {| struct := s;
     __validate__ := true;
     __write_concern__ := <["j" := VBool false]> (<["w" := VInt 1]> ∅) |}.

Definition type_ok (v : value) (ty : option (list pytype)) : bool :=
  match ty with
  | None => true
  | Some ts => existsb (isinstance v) ts
  end.

Definition mem (k : string) (l : list string) : bool :=
  existsb (String.eqb k) l.

Definition check_field (s : Struct) (content : dict)
    (decl : string * option (list pytype)) : list (string * violation) :=
  let (name, ty) := decl in
  match content !! name with
  | None => if mem name (required_fields s) then [(name, Missing)] else []
  | Some v =>
      if mem name (strict_fields s) && negb (type_ok v ty)
      then [(name, Mismatch)] else []
  end.

(** Modelled from the spec: [StructuredDict.validate] of
    [simplemongo/dstruct.py], which is not among the sources.  Section
    4.2: every declared field is checked against the table (a required
    field must be present; a strict field, when present, must be an
    instance of its declared type), undeclared fields are not examined,
    and one error names all offending fields. *)
Definition validate_dict (s : Struct) (content : dict) : outcome unit :=
  match flat_map (check_field s content) (struct_fields s) with
  | [] => Ok tt
  | offending => Raise (ValidationError offending)
  end.

Definition validate (cls : DocClass) : M unit :=
  fun s => (validate_dict (struct cls) (fields (self s)), s).

(** ** The methods of [Document] *)

(** [Document.__init__(raw, from_db)]. *)
Definition Document_init (raw : option dict) (from_db : bool) : outcome Document :=
  match raw with
  | None =>
      if from_db then Raise (AssertionError "")
      else Ok {| fields := ∅; _raw := None; _in_db := from_db; _history := None |}
  | Some r =>
      if from_db
      then Ok {| fields := deepcopy r; _raw := Some r;
                 _in_db := from_db; _history := None |}
      else Ok {| fields := r; _raw := None;
                 _in_db := from_db; _history := None |}
  end.

(** The [identifier] property. *)
Definition identifier : M dict :=
  i <- self_getitem "_id" ;;
  ret ({["_id" := i]} : dict).

(** [_get_write_options]: the class's write concern, overridden
    by [kwgs]. *)
Definition _get_write_options (cls : DocClass) (kwgs : dict) : dict :=
  kwgs ∪ __write_concern__ cls.

(** [self.col.save(self, **options)]; a document without [_id] is given
    one by the driver. *)
Definition col_save (options : dict) : M value :=
  f <- gets (fun s => fields (self s)) ;;
  match f !! "_id" with
  | Some i => on_world (on_col (Collection_save f i options))
  | None =>
      i <- on_world ObjectId_new ;;
      self_setitem "_id" i ;;
      on_world (on_col (Collection_save (<["_id" := i]> f) i options))
  end.

(** [Document.save]. *)
Definition save (cls : DocClass) : M value :=
  (if __validate__ cls then validate cls else ret tt) ;;
  has_id <- self_contains "_id" ;;
  (if has_id then ret tt
   else i <- on_world ObjectId_new ;; self_setitem "_id" i) ;;
  raw <- gets (fun s => _raw (self s)) ;;
  match raw with
  | None =>
      f <- gets (fun s => fields (self s)) ;;
      with_self (set_raw (Some (deepcopy f)))
  | Some _ => ret tt
  end ;;
  rv <- col_save (_get_write_options cls {["manipulate" := VBool true]}) ;;
  with_self (set_in_db true) ;;
  ret rv.

(** [Document.remove]. *)
Definition remove (cls : DocClass) : M unit :=
  in_db <- gets (fun s => _in_db (self s)) ;;
  (if in_db then ret tt
   else raise (AssertionError "Could not remove document which is not in database")) ;;
  f <- gets (fun s => fields (self s)) ;;
  with_self (set_history (Some f)) ;;
  _id <- self_getitem "_id" ;;
  on_world (on_col (Collection_remove _id (_get_write_options cls ∅))) ;;
  self_clear ;;
  with_self (set_in_db false).

(** [Document.update_self(spec, **kwargs)]. *)
Definition update_self (cls : DocClass) (spec : ChangeSet) (kwargs : dict) : M value :=
  let options := <["multi" := VBool false]> (_get_write_options cls kwargs) in
  ident <- identifier ;;
  on_world (on_col (Collection_update ident spec options)).

(** The [changes] property read on [self]. *)
Definition self_changes : M (option ChangeSet) :=
  fun s => (changes (self s), s).

(** [Document.update_changes]. *)
Definition update_changes (cls : DocClass) (kwargs : dict) : M unit :=
  c <- self_changes ;;
  match c with
  | Some cs =>
      if cs_truthy cs then update_self cls cs kwargs ;; ret tt
      else ret tt
  | None => ret tt
  end.

(** [Document.pull]. *)
Definition pull : M unit :=
  ident <- identifier ;;
  doc <- except_StopIteration
           (on_world (on_col (Cursor_next ident)))
           (raise (SimplemongoException
                     "Document was deleted before `pull` was called")) ;;
  self_clear ;;
  self_update doc.

(** Modelled from the spec: [StructuredDict.build_instance] of
    [simplemongo/dstruct.py], which is not among the sources.  Section
    4.4, construction paths: the instance is built from the caller's data,
    detached (no snapshot, not in the database). *)
Definition build_instance (cls : DocClass) (kwargs : dict) : ST World Document :=
  fun w => (Document_init (Some kwargs) false, w).

(** [Document.new], called with keyword arguments [kwargs]. *)
Definition new (cls : DocClass) (kwargs : dict) : ST World Document :=
  kwargs' <- match kwargs !! "_id" with
             | Some _ => ret kwargs
             | None => i <- ObjectId_new ;; ret (<["_id" := i]> kwargs)
             end ;;
  build_instance cls kwargs'.

(** ** Notions used in the statements *)

(** [v] is an integer, that is an instance of [int], and stands for the
    number [z]: an [int] within the bounds of a machine word, or a [bool]
    ([False] is 0 and [True] is 1).  A [long] is not an instance of
    [int]. *)
Inductive is_int : value -> Z -> Prop :=
| is_int_VInt (z : Z) : - maxint - 1 <= z <= maxint -> is_int (VInt z) z
| is_int_VBool (b : bool) : is_int (VBool b) (Z.b2z b).

(** What one changed key contributes: the increment when both values are
    instances of [int], nothing otherwise (the key then goes to [$set]). *)
Definition inc_value (a b : value) : option value :=
  match as_int a, as_int b with
  | Some x, Some y => Some (int_sub x y)
  | _, _ => None
  end.

(** Both the current and the snapshot value of a field are instances of
    [int]. *)
Definition both_int (self raw : dict) (k : string) : bool :=
  match self !! k, raw !! k with
  | Some a, Some b => isinstance a TInt && isinstance b TInt
  | _, _ => false
  end.

(** A counter loaded with [count] 5 whose [count] is then set to [v]. *)
Definition counter_set_to (v : value) : Document :=
  {| fields := {["count" := v]};
     _raw := Some {["count" := VInt 5]};
     _in_db := true; _history := None |}.

(** A document loaded from an empty record, to which a field is then
    added. *)
Definition empty_snapshot_doc : Document :=
  set_fields (<["a" := VInt 1]> ∅)
    {| fields := ∅; _raw := Some ∅; _in_db := true; _history := None |}.

(** ** Worked examples *)

(** A document type with one declared field, [count], required and
    strictly an [int]. *)
Definition counter_struct : Struct :=
  {| struct_fields := [("count", Some [TInt])];
     required_fields := ["count"];
     strict_fields := ["count"] |}.

Definition Counter : DocClass := Document_class counter_struct.

Definition empty_col : Collection :=
  {| records := []; journal := []; reachable := true |}.

Definition world0 : World := {| col := empty_col; oid_counter := 0 |}.

(** [Counter({'count': 1})] and [Counter({'count': '3'})], not yet saved. *)
Definition fresh_doc : Document :=
  {| fields := {["count" := VInt 1]}; _raw := None;
     _in_db := false; _history := None |}.

Definition invalid_doc : Document :=
  {| fields := {["count" := VStr "3"]}; _raw := None;
     _in_db := false; _history := None |}.

(** A stored counter, loaded and then incremented in memory. *)
Definition stored_record : dict :=
  <["count" := VInt 5]> {["_id" := VOid 7]}.

Definition stored_world : World :=
  {| col := {| records := [stored_record]; journal := []; reachable := true |};
     oid_counter := 8 |}.

Definition loaded_doc : Document :=
  {| fields := stored_record; _raw := Some stored_record;
     _in_db := true; _history := None |}.

Definition edited_doc : Document :=
  set_fields (<["count" := VInt 7]> stored_record) loaded_doc.

(** The edited counter while its record is stored, and after another
    actor deleted the record. *)
Definition stored_state : State :=
  {| self := edited_doc; world := stored_world |}.

Definition vanished_state : State :=
  {| self := edited_doc;
     world := {| col := empty_col; oid_counter := 8 |} |}.

(** The loaded counter removed, then reused with new content and saved
    again. *)
Definition removed_state : State :=
  snd (remove Counter {| self := loaded_doc; world := stored_world |}).

Definition resaved_state : State :=
  snd (save Counter
         {| self := set_fields {["count" := VInt 1]} (self removed_state);
            world := world removed_state |}).

(** ** Objects, references and copies *)

(** The embedding above gives every mapping its own tree of values.
    Which objects two mappings share is a matter of the object store:
    here a value is a scalar or a reference to a stored list or
    dictionary, an assignment copies the reference, and a write changes
    the object for every holder of a reference to it. *)
Module Aliasing.

Abbreviation loc := nat.

Inductive hval : Type :=
| HNone
| HBool (b : bool)
| HInt (z : Z)
| HStr (s : string)
| HOid (n : N)
| HRef (l : loc).

Inductive obj : Type :=
| ODict (items : list (string * hval))
| OList (items : list hval).

(** The store: the object of location [l] is the [l]-th element, and a
    new object is put at the end. *)
Abbreviation heap := (list obj).

Definition alloc (h : heap) (o : obj) : heap * loc := ((h ++ [o])%list, length h).

(** An in-place write: the object at [l] becomes [o]. *)
Definition write (h : heap) (l : loc) (o : obj) : heap := <[l := o]> h.

(** The values an object holds, and the object with the same keys holding
    other values. *)
Definition children (o : obj) : list hval :=
  match o with
  | ODict items => items.*2
  | OList items => items
  end.

Definition with_children (o : obj) (vs : list hval) : obj :=
  match o with
  | ODict items => ODict (zip items.*1 vs)
  | OList _ => OList vs
  end.

(** The tree of values seen from above: a dictionary or list with the
    trees of what it holds. *)
Definition rebuild (o : obj) (vs : list value) : value :=
  match o with
  | ODict items => VDict (zip items.*1 vs)
  | OList _ => VList vs
  end.

(** [l'] is among the objects one can get to from [v]. *)
Inductive reach (h : heap) : hval -> loc -> Prop :=
| reach_here (l : loc) : reach h (HRef l) l
| reach_child (l : loc) (o : obj) (v : hval) (l' : loc) :
    h !! l = Some o -> v ∈ children o -> reach h v l' ->
    reach h (HRef l) l'.

Fixpoint read_all (rd : hval -> option value) (vs : list hval)
  : option (list value) :=
  match vs with
  | [] => Some []
  | v :: rest =>
      match rd v, read_all rd rest with
      | Some x, Some xs => Some (x :: xs)
      | _, _ => None
      end
  end.

(** The content reached from [v], as a value of the embedding above;
    [fuel] bounds the nesting depth that is followed. *)
Fixpoint read (fuel : nat) (h : heap) (v : hval) : option value :=
  match v with
  | HNone => Some VNone
  | HBool b => Some (VBool b)
  | HInt z => Some (VInt z)
  | HStr s => Some (VStr s)
  | HOid n => Some (VOid n)
  | HRef l =>
      match fuel with
      | O => None
      | S f =>
          match h !! l with
          | Some o => rebuild o <$> read_all (read f h) (children o)
          | None => None
          end
      end
  end.

Fixpoint copy_all (cp : heap -> hval -> option (heap * hval)) (h : heap)
    (vs : list hval) : option (heap * list hval) :=
  match vs with
  | [] => Some (h, [])
  | v :: rest =>
      match cp h v with
      | Some (h1, v') =>
          match copy_all cp h1 rest with
          | Some (h2, rest') => Some (h2, v' :: rest')
          | None => None
          end
      | None => None
      end
  end.

(** [copy.deepcopy(v)]: scalars are returned as they are, a list or
    dictionary is rebuilt as a new object from the copies of what it
    holds.  The names given to the new objects are not observable; the
    memo by which [deepcopy] keeps sharing inside the copy is left out, so
    an object met twice is copied twice.  [fuel] bounds the nesting
    depth. *)
Fixpoint deepcopy (fuel : nat) (h : heap) (v : hval) : option (heap * hval) :=
  match v with
  | HRef l =>
      match fuel with
      | O => None
      | S f =>
          match h !! l with
          | Some o =>
              match copy_all (deepcopy f) h (children o) with
              | Some (h', vs) => Some ((h' ++ [with_children o vs])%list,
                                       HRef (length h'))
              | None => None
              end
          | None => None
          end
      end
  | _ => Some (h, v)
  end.

(** A [Document] instance: the instance is itself the dictionary at
    [self_loc]; [_raw] is a reference or [None]. *)
Record Document : Type := {
  self_loc : loc;
  _raw : option loc;
  _in_db : bool
}.

(** [dict.__init__(self, m)]: the new instance holds the items of [m]. *)
Definition dict_init (h : heap) (m : hval) : option (heap * loc) :=
  match m with
  | HRef l =>
      match h !! l with
      | Some (ODict items) => Some (alloc h (ODict items))
      | _ => None
      end
  | _ => None
  end.

(** [Document.__init__(raw, from_db)]; [None] stands for the failed
    assertion, for a [raw] that is no dictionary, and for a nesting deeper
    than [fuel]. *)
Definition init (fuel : nat) (h : heap) (raw : option loc) (from_db : bool)
  : option (heap * Document) :=
  match raw with
  | None =>
      if from_db then None
      else let (h', l) := alloc h (ODict []) in
           Some (h', {| self_loc := l; _raw := None; _in_db := from_db |})
  | Some r =>
      if from_db then
        match deepcopy fuel h (HRef r) with
        | Some (h1, c) =>
            match dict_init h1 c with
            | Some (h2, l) =>
                Some (h2, {| self_loc := l; _raw := Some r; _in_db := from_db |})
            | None => None
            end
        | None => None
        end
      else
        match dict_init h (HRef r) with
        | Some (h', l) =>
            Some (h', {| self_loc := l; _raw := None; _in_db := from_db |})
        | None => None
        end
  end.

(** The statement [if self._raw is None: self._raw =
    copy.deepcopy(dict(self))] of [Document.save]. *)
Definition save_snapshot (fuel : nat) (h : heap) (d : Document)
  : option (heap * Document) :=
  match _raw d with
  | Some _ => Some (h, d)
  | None =>
      match dict_init h (HRef (self_loc d)) with
      | Some (h1, t) =>
          match deepcopy fuel h1 (HRef t) with
          | Some (h2, HRef c) =>
              Some (h2, {| self_loc := self_loc d; _raw := Some c;
                           _in_db := _in_db d |})
          | _ => None
          end
      | None => None
      end
  end.

(** A value that is a scalar or refers into a set of locations, and an
    object all of whose values do. *)
Definition val_in (P : loc -> Prop) (v : hval) : Prop :=
  match v with
  | HRef l => P l
  | _ => True
  end.

Definition obj_in (P : loc -> Prop) (o : obj) : Prop :=
  Forall (val_in P) (children o).

Definition below (n : nat) : loc -> Prop := fun l => (l < n)%nat.
Definition from (n : nat) : loc -> Prop := fun l => (n <= l)%nat.

(** No object refers to a location beyond the store. *)
Definition closed (h : heap) : Prop := Forall (obj_in (below (length h))) h.

(** A stored record with a nested list, as a query returns it:
    [{'_id': ObjectId(7), 'tags': ['x']}]. *)
Definition record_heap : heap :=
  [OList [HStr "x"]; ODict [("_id", HOid 7); ("tags", HRef 0%nat)]].

(** The store after [Document(record, from_db=True)] on [record_heap]:
    the copy of the list, the copy of the record, the instance. *)
Definition loaded_heap : heap :=
  (record_heap ++
   [OList [HStr "x"]; ODict [("_id", HOid 7); ("tags", HRef 2%nat)];
    ODict [("_id", HOid 7); ("tags", HRef 2%nat)]])%list.

(** The store after [Document(record)], and that detached instance. *)
Definition detached_heap : heap :=
  (record_heap ++ [ODict [("_id", HOid 7); ("tags", HRef 0%nat)]])%list.

Definition detached_doc : Document :=
  {| self_loc := 2%nat; _raw := None; _in_db := false |}.

End Aliasing.

(** ** Further notions used in the statements *)

(** No instruction of a change set is bound to an empty mapping or set. *)
Definition nonempty_instructions (c : ChangeSet) : Prop :=
  (forall m, cs_set c = Some m -> m <> ∅) /\
  (forall m, cs_inc c = Some m -> m <> ∅) /\
  (forall u, cs_unset c = Some u -> u <> ∅).

(** The content and the snapshot agree on a key: both lack it, or both
    have it with values equal by [==]. *)
Definition agree_at (content raw : dict) (k : string) : Prop :=
  match content !! k, raw !! k with
  | Some a, Some b => py_eq a b = true
  | None, None => True
  | _, _ => False
  end.

(** Every value of a mapping is equal to itself by [==]. *)
Definition self_equal (m : dict) : Prop :=
  forall k v, m !! k = Some v -> py_eq v v = true.

(** The instruction set of [scenario_doc]. *)
Definition scenario_changeset : ChangeSet :=
  {| cs_set := Some {["flag" := VBool true]};
     cs_inc := Some {["count" := VInt 2]};
     cs_unset := Some {["tag"]} |}.

(** The counter type with validation switched off. *)
Definition Unchecked : DocClass :=
  {| struct := counter_struct;
     __validate__ := false;
     __write_concern__ := __write_concern__ Counter |}.

(** The document of a classmethod's result; the empty detached document
    when it raised. *)
Definition fst_doc (r : outcome Document * World) : Document :=
  match fst r with
  | Ok d => d
  | Raise _ =>
      {| fields := ∅; _raw := None; _in_db := false; _history := None |}
  end.

(** [Counter.new(count=1)] in the empty world, and the world it leaves. *)
Definition new_doc : Document :=
  fst_doc (new Counter {["count" := VInt 1]} world0).

Definition new_world : World := snd (new Counter {["count" := VInt 1]} world0).

(** ** Identifiers, class declaration and lookups *)

(** [str(type(v))] as Python 2 prints it. *)
Definition type_repr (v : value) : string :=
  match v with
  | VNone => "<type 'NoneType'>"
  | VBool _ => "<type 'bool'>"
  | VInt z => if int_range z then "<type 'int'>" else "<type 'long'>"
  | VLong _ => "<type 'long'>"
  | VStr _ => "<type 'str'>"
  | VOid _ => "<class 'bson.objectid.ObjectId'>"
  | VList _ => "<type 'list'>"
  | VDict _ => "<type 'dict'>"
  end.

(** [oid(id)].  [ObjectId_of_str] stands for the constructor
    [ObjectId(str)] of [bson], which returns an identifier or raises. *)
Definition oid (ObjectId_of_str : string -> outcome value) (id : value)
  : outcome value :=
  match id with
  | VOid _ => Ok id
  | VStr s => ObjectId_of_str s
  | _ => Raise (ValueError ("get type " ++ type_repr id ++
                            ", should be str/unicode or ObjectId"))
  end.

(** A stand-in for [ObjectId(str)]: 24 characters name an identifier. *)
Definition sample_ObjectId (s : string) : outcome value :=
  if Nat.eqb (String.length s) 24
  then Ok (VOid (N.of_nat (String.length s)))
  else Raise (ValueError "not a valid ObjectId").

(** The bases of a class statement: [StructuredDict] itself or another
    class; and what a class attribute is bound to. *)
Inductive pyclass : Type :=
| StructuredDict_class
| UserClass (name : string).

Inductive attribute : Type :=
| ACollection (c : Collection)
| AValue (v : value).

Definition is_Collection (a : attribute) : bool :=
  match a with
  | ACollection _ => true
  | AValue _ => false
  end.

(** [len(bases) == 1 and bases[0] is StructuredDict]. *)
Definition only_StructuredDict (bases : list pyclass) : bool :=
  match bases with
  | [StructuredDict_class] => true
  | _ => false
  end.

(** [DocumentMetaclass.__new__(cls, name, bases, attrs)].  [parent] is
    [StructuredDictMetaclass.__new__], which is not among the sources, and
    [describe] prints an attribute and its type for the message. *)
Definition DocumentMetaclass_new {T : Type}
    (parent : string -> list pyclass -> gmap string attribute -> outcome T)
    (describe : attribute -> string)
    (name : string) (bases : list pyclass) (attrs : gmap string attribute)
  : outcome T :=
  if negb (only_StructuredDict bases) then
    match attrs !! "col" with
    | None =>
        Raise (StructError
                 "`col` attribute should be assigned for Document subclass")
    | Some a =>
        if negb (is_Collection a)
        then Raise (StructError
                      ("`col` should be pymongo.Collection instance, received: "
                       ++ describe a))
        else parent name bases attrs
    end
  else parent name bases attrs.

(** The items of a dictionary value as a mapping. *)
Definition dict_of_items (items : list (string * value)) : dict :=
  list_to_map items.

(** The query [one] hands to [find]: [None] and any dictionary are
    passed on as they are, every other argument [id] becomes
    [{"_id": id}]; a cursor over [None] finds every record. *)
Definition one_query (spec_or_id : value) : dict :=
  match spec_or_id with
  | VNone => ∅
  | VDict items => dict_of_items items
  | id => {["_id" := id]}
  end.

(** A detached document whose identifier is a dictionary. *)
Definition dict_id_doc : Document :=
  {| fields := <["count" := VInt 1]> {["_id" := VDict [("a", VInt 1)]]};
     _raw := None; _in_db := false; _history := None |}.

(** Modelled from the spec: [SimplemongoCursor] of [simplemongo/cursor.py],
    which is not among the sources.  Section 4.5: [count()] is the number
    of records that satisfy the query; iterating yields the records in
    stored order, each wrapped by the loaded construction path
    [cls(record, from_db=True)].  The journal keeps reads and writes of
    records; a count is not entered in it. *)
Definition SimplemongoCursor_count (spec : dict) : ST Collection nat :=
  answering ;;
  rs <- gets records ;;
  ret (length (List.filter (matches spec) rs)).

Definition SimplemongoCursor_first (spec : dict) : ST Collection (option Document) :=
  received (ReqFind spec) ;;
  answering ;;
  rs <- gets records ;;
  match List.filter (matches spec) rs with
  | r :: _ => fun c => (obind (Document_init (Some r) true) (fun d => Ok (Some d)), c)
  | [] => ret None
  end.

(** [Document.one(spec_or_id, allow_multiple)]; [explain] stands for the
    text of [cursor.explain()]. *)
Definition one (explain : dict -> string) (spec_or_id : value)
    (allow_multiple : bool) : ST Collection (option Document) :=
  let spec := one_query spec_or_id in
  (if negb allow_multiple then
     count <- SimplemongoCursor_count spec ;;
     if (1 <? count)%nat
     then raise (MultipleObjectsReturned ("explain: " ++ explain spec))
     else ret tt
   else ret tt) ;;
  SimplemongoCursor_first spec.

(** [Document.one_or_raise]; [shown] stands for the text of the
    arguments in the message. *)
Definition one_or_raise (explain : dict -> string) (shown : string)
    (spec_or_id : value) (allow_multiple : bool) : ST Collection Document :=
  rv <- one explain spec_or_id allow_multiple ;;
  match rv with
  | None => raise (ObjectNotFound ("Could not find: " ++ shown))
  | Some d => ret d
  end.

(** * Properties *)

(** ** The structural diff *)

Section Diff.
Context (current baseline : dict).

Lemma diff_added_lookup k v :
  diff_added (diff_dicts current baseline) !! k = Some v <->
  current !! k = Some v /\ baseline !! k = None.
Proof.
  cbn. rewrite map_lookup_imap.
  destruct (current !! k) as [a|] eqn:Hc; cbn.
  - destruct (baseline !! k); split.
    + discriminate.
    + intros [_ ?]. discriminate.
    + intros ->. auto.
    + intros [-> _]. reflexivity.
  - split; [discriminate | intros [? _]; discriminate].
Qed.

Lemma diff_changed_lookup k v :
  diff_changed (diff_dicts current baseline) !! k = Some v <->
  current !! k = Some v /\
  exists w, baseline !! k = Some w /\ py_eq v w = false.
Proof.
  cbn. rewrite map_lookup_imap.
  destruct (current !! k) as [a|] eqn:Hc; cbn.
  - destruct (baseline !! k) as [w|].
    + destruct (py_eq a w) eqn:He; split.
      * discriminate.
      * intros [[= ->] (w' & [= <-] & He')]. congruence.
      * intros [= ->]. eauto.
      * intros [[= ->] _]. reflexivity.
    + split; [discriminate | intros [_ (w & ? & _)]; discriminate].
  - split; [discriminate | intros [? _]; discriminate].
Qed.

Lemma diff_removed_elem k :
  k ∈ diff_removed (diff_dicts current baseline) <->
  is_Some (baseline !! k) /\ current !! k = None.
Proof.
  cbn. rewrite elem_of_difference, !elem_of_dom, <- eq_None_not_Some.
  reflexivity.
Qed.

Lemma diff_changed_keys k :
  k ∈ (map_to_list (diff_changed (diff_dicts current baseline))).*1 <->
  exists v, diff_changed (diff_dicts current baseline) !! k = Some v.
Proof.
  rewrite list_elem_of_fmap. split.
  - intros ([k' v] & -> & Hin). apply elem_of_map_to_list in Hin. eauto.
  - intros [v Hv]. exists (k, v). split; [reflexivity|].
    apply elem_of_map_to_list. exact Hv.
Qed.
End Diff.

(** ** The loop of [changes] *)

Lemma int_range_spec z : int_range z = true <-> - maxint - 1 <= z <= maxint.
Proof. unfold int_range. rewrite andb_true_iff, !Z.leb_le. reflexivity. Qed.

Lemma as_int_isinstance v : is_Some (as_int v) <-> isinstance v TInt = true.
Proof.
  destruct v; cbn; try destruct (int_range z); split; intros H;
    try reflexivity; try discriminate; try (destruct H; discriminate); eauto.
Qed.

Lemma as_int_None v : as_int v = None <-> isinstance v TInt = false.
Proof.
  destruct v; cbn; try destruct (int_range z); split; intros H; congruence.
Qed.

Lemma is_int_as_int v z : is_int v z <-> as_int v = Some z.
Proof.
  split.
  - intros [z' Hz|b]; cbn; [|reflexivity].
    apply int_range_spec in Hz. rewrite Hz. reflexivity.
  - destruct v; cbn; try discriminate.
    + intros [= <-]. constructor.
    + destruct (int_range z0) eqn:Hz; [|discriminate].
      intros [= <-]. constructor. apply int_range_spec. exact Hz.
Qed.

Lemma not_is_int_as_int v : (forall z, ~ is_int v z) <-> as_int v = None.
Proof.
  split.
  - intros H. destruct (as_int v) as [z|] eqn:Hz; [|reflexivity].
    exfalso. apply (H z), is_int_as_int. exact Hz.
  - intros H z Hz. apply is_int_as_int in Hz. congruence.
Qed.

Lemma is_int_isinstance v : (exists z, is_int v z) <-> isinstance v TInt = true.
Proof.
  rewrite <- as_int_isinstance. split.
  - intros [z Hz]. apply is_int_as_int in Hz. eauto.
  - intros [z Hz]. exists z. apply is_int_as_int. exact Hz.
Qed.

Lemma int_sub_eq x y :
  int_sub x y =
  if bool_decide (- maxint - 1 <= x - y <= maxint)
  then VInt (x - y) else VLong (x - y).
Proof.
  unfold int_sub, of_number.
  destruct (int_range (x - y)) eqn:Hr.
  - rewrite bool_decide_eq_true_2; [reflexivity|]. apply int_range_spec, Hr.
  - rewrite bool_decide_eq_false_2; [reflexivity|].
    intros H. apply int_range_spec in H. congruence.
Qed.

Lemma changes_step_spec self raw c i a b :
  self !! i = Some a -> raw !! i = Some b ->
  changes_step self raw c i =
  Ok (match inc_value a b with
      | Some d => inc_entry i d c
      | None => set_entry i a c
      end).
Proof.
  intros Ha Hb. unfold changes_step, getitem, inc_value. rewrite Ha. cbn.
  destruct (as_int a); [|reflexivity].
  rewrite Hb. cbn. destruct (as_int b); reflexivity.
Qed.

Lemma changes_loop_spec self raw keys :
  forall c0,
    NoDup keys ->
    (forall k, k ∈ keys -> is_Some (self !! k) /\ is_Some (raw !! k)) ->
    exists c,
      changes_loop self raw c0 keys = Ok c /\
      cs_unset c = cs_unset c0 /\
      (forall k, k ∉ keys ->
         set_of c !! k = set_of c0 !! k /\ inc_of c !! k = inc_of c0 !! k) /\
      (forall k a b, k ∈ keys -> self !! k = Some a -> raw !! k = Some b ->
         match inc_value a b with
         | Some d => inc_of c !! k = Some d /\ set_of c !! k = set_of c0 !! k
         | None => set_of c !! k = Some a /\ inc_of c !! k = inc_of c0 !! k
         end).
Proof.
  induction keys as [|i rest IH]; intros c0 Hnd Hdom.
  - exists c0. cbn. repeat split; intros; try reflexivity.
    exfalso. eapply not_elem_of_nil; eassumption.
  - apply NoDup_cons in Hnd as [Hi Hnd].
    destruct (Hdom i) as [[a Ha] [b Hb]]; [left|].
    cbn [changes_loop]. rewrite (changes_step_spec _ _ _ _ _ _ Ha Hb). cbn [obind].
    set (c1 := match inc_value a b with
               | Some d => inc_entry i d c0
               | None => set_entry i a c0
               end).
    destruct (IH c1 Hnd) as (c & Hrun & Hun & Hout & Hin).
    { intros k Hk. apply Hdom. right. exact Hk. }
    assert (Hother : forall k, k <> i ->
              set_of c1 !! k = set_of c0 !! k /\ inc_of c1 !! k = inc_of c0 !! k).
    { intros k Hne. subst c1. destruct (inc_value a b); cbn;
        unfold set_of, inc_of; cbn;
        rewrite ?lookup_insert_ne by congruence; auto. }
    exists c. split; [exact Hrun|]. split.
    { rewrite Hun. subst c1. destruct (inc_value a b); reflexivity. }
    split.
    + intros k Hk. apply not_elem_of_cons in Hk as [Hne Hk].
      destruct (Hout k Hk) as [-> ->]. apply Hother. exact Hne.
    + intros k a' b' Hk Ha' Hb'. apply elem_of_cons in Hk as [->|Hk].
      * assert (a' = a) by congruence. assert (b' = b) by congruence. subst a' b'.
        destruct (Hout i Hi) as [Hs Hn]. rewrite Hs, Hn. subst c1.
        destruct (inc_value a b) as [d|]; cbn; unfold set_of, inc_of; cbn;
          rewrite lookup_insert_eq; auto.
      * assert (k <> i) as Hne by (intros ->; contradiction).
        specialize (Hin k a' b' Hk Ha' Hb').
        destruct (Hother k Hne) as [Hs Hn].
        destruct (inc_value a' b'); rewrite <- ?Hs, <- ?Hn; exact Hin.
Qed.

Lemma dict_truthy_true (m : dict) : m <> ∅ -> dict_truthy m = true.
Proof.
  intros H. unfold dict_truthy. rewrite bool_decide_eq_false_2; auto.
Qed.

Lemma dict_truthy_false (m : dict) : dict_truthy m = false -> m = ∅.
Proof.
  unfold dict_truthy. intros H. apply negb_false_iff in H.
  apply bool_decide_eq_true_1 in H. exact H.
Qed.

Lemma set_truthy_false (s : gset string) : set_truthy s = false -> s = ∅.
Proof.
  unfold set_truthy. intros H. apply negb_false_iff in H.
  apply bool_decide_eq_true_1 in H. exact H.
Qed.

(** [changes] on a document whose snapshot has at least one field: the
    instruction set exists, and each key of the document or the snapshot
    is accounted for. *)
Lemma changes_spec (d : Document) (raw : dict) :
  _raw d = Some raw -> raw <> ∅ ->
  exists c,
    changes d = Ok (Some c) /\
    unset_of c = diff_removed (diff_dicts (fields d) raw) /\
    (forall k, diff_changed (diff_dicts (fields d) raw) !! k = None ->
       set_of c !! k = diff_added (diff_dicts (fields d) raw) !! k /\
       inc_of c !! k = None) /\
    (forall k a b,
       fields d !! k = Some a -> raw !! k = Some b -> py_eq a b = false ->
       match inc_value a b with
       | Some delta => inc_of c !! k = Some delta /\ set_of c !! k = None
       | None => set_of c !! k = Some a /\ inc_of c !! k = None
       end).
Proof.
  intros Hraw Hne. unfold changes. rewrite Hraw.
  rewrite (dict_truthy_true raw Hne). cbn [negb].
  set (diff := diff_dicts (fields d) raw).
  set (c0 := if dict_truthy (diff_added diff)
             then {| cs_set := Some (diff_added diff);
                     cs_inc := None; cs_unset := None |}
             else cs_empty).
  assert (Hset0 : set_of c0 = diff_added diff).
  { subst c0. destruct (dict_truthy (diff_added diff)) eqn:Ht; [reflexivity|].
    apply dict_truthy_false in Ht. rewrite Ht. reflexivity. }
  assert (Hinc0 : inc_of c0 = ∅).
  { subst c0. destruct (dict_truthy (diff_added diff)); reflexivity. }
  assert (Hun0 : cs_unset c0 = None).
  { subst c0. destruct (dict_truthy (diff_added diff)); reflexivity. }
  destruct (changes_loop_spec (fields d) raw
              (map_to_list (diff_changed diff)).*1 c0)
    as (c1 & Hrun & Hun & Hout & Hin).
  { apply NoDup_fst_map_to_list. }
  { intros k Hk. apply diff_changed_keys in Hk as [v Hv].
    apply diff_changed_lookup in Hv as [Hc (w & Hw & _)].
    rewrite Hc, Hw. eauto. }
  rewrite Hrun. cbn [obind].
  eexists. split; [reflexivity|].
  set (c := if set_truthy (diff_removed diff) then _ else c1).
  assert (Hs : set_of c = set_of c1).
  { subst c. destruct (set_truthy (diff_removed diff)); reflexivity. }
  assert (Hi : inc_of c = inc_of c1).
  { subst c. destruct (set_truthy (diff_removed diff)); reflexivity. }
  rewrite Hs, Hi. split; [|split].
  - subst c. destruct (set_truthy (diff_removed diff)) eqn:Ht; [reflexivity|].
    apply set_truthy_false in Ht. unfold unset_of. rewrite Hun, Hun0, Ht.
    reflexivity.
  - intros k Hk. destruct (Hout k) as [-> ->].
    + intros Hin'. apply diff_changed_keys in Hin' as [v Hv].
      unfold diff in *. congruence.
    + rewrite Hset0, Hinc0, lookup_empty. auto.
  - intros k a b Ha Hb Hneq.
    assert (Hch : diff_changed diff !! k = Some a).
    { apply diff_changed_lookup. eauto. }
    assert (Hk : k ∈ (map_to_list (diff_changed diff)).*1).
    { apply diff_changed_keys. eauto. }
    specialize (Hin k a b Hk Ha Hb).
    assert (Hadd : diff_added diff !! k = None).
    { destruct (diff_added diff !! k) eqn:Hadd; [|reflexivity].
      apply diff_added_lookup in Hadd as [_ ?]. congruence. }
    rewrite Hset0, Hinc0, Hadd, lookup_empty in Hin. exact Hin.
Qed.

Lemma changes_no_snapshot (d : Document) :
  _raw d = None \/ _raw d = Some ∅ -> changes d = Ok None.
Proof.
  unfold changes. intros [-> | ->]; reflexivity.
Qed.

(** ** [changes]: from the diff to the instructions *)

Example scenario_changes :
  changes scenario_doc =
  Ok (Some {| cs_set := Some {["flag" := VBool true]};
              cs_inc := Some {["count" := VInt 2]};
              cs_unset := Some {["tag"]} |}).
Proof. vm_compute. reflexivity. Qed.

Lemma inc_value_both_int self raw k a b :
  self !! k = Some a -> raw !! k = Some b ->
  (inc_value a b = None <-> both_int self raw k = false).
Proof.
  intros Ha Hb. unfold both_int, inc_value. rewrite Ha, Hb.
  destruct (as_int a) as [x|] eqn:Hx, (as_int b) as [y|] eqn:Hy.
  - assert (isinstance a TInt = true) as -> by (apply as_int_isinstance; eauto).
    assert (isinstance b TInt = true) as -> by (apply as_int_isinstance; eauto).
    cbn. split; discriminate.
  - apply as_int_None in Hy. rewrite Hy, andb_false_r. tauto.
  - apply as_int_None in Hx. rewrite Hx. cbn. tauto.
  - apply as_int_None in Hx. rewrite Hx. cbn. tauto.
Qed.

(** C1.  The claim fails on a document loaded from the empty record
    ([Document({}, from_db=True)]) to which the field [a] is added.  The
    document has a snapshot, the empty mapping, and [a] was added since,
    so the claim gives a [$set] of [a]; [changes] yields [None], because
    its guard [not self._raw] also holds for an empty snapshot.  [save],
    which tests [self._raw is None], takes the same object for a snapshot
    and keeps it, and [update_changes] submits nothing for the added
    field. *)
Lemma changes_empty_snapshot_lost :
  Document_init (Some ∅) true =
    Ok {| fields := ∅; _raw := Some ∅; _in_db := true; _history := None |} /\
  _raw empty_snapshot_doc = Some ∅ /\
  diff_added (diff_dicts (fields empty_snapshot_doc) ∅) !! "a" = Some (VInt 1) /\
  changes empty_snapshot_doc = Ok None /\
  ~ (exists c, changes empty_snapshot_doc = Ok (Some c) /\
               set_of c !! "a" = Some (VInt 1)) /\
  _raw (self (snd (save Unchecked
                     {| self := empty_snapshot_doc; world := world0 |}))) =
    Some ∅ /\
  journal (col (world (snd (update_changes Unchecked ∅
                              {| self := empty_snapshot_doc;
                                 world := world0 |})))) = [].
Proof.
  split; [reflexivity|]. split; [reflexivity|].
  split; [vm_compute; reflexivity|]. split; [reflexivity|].
  split; [intros (c & Hc & _); discriminate Hc|].
  split; vm_compute; reflexivity.
Qed.

(** X21.  For every Document whose snapshot holds at least one field,
    [changes] yields an instruction set in which [$set] holds exactly
    the keys added since the snapshot and the changed keys whose values
    are not both instances of [int], each with its current value, and
    [$unset] holds exactly the keys removed since the snapshot; without
    a snapshot, and with an empty one, [changes] yields [None]. *)
Theorem changes_maps_diff (d : Document) :
  (_raw d = None \/ _raw d = Some ∅ -> changes d = Ok None) /\
  (forall raw, _raw d = Some raw -> raw <> ∅ ->
     exists c,
       changes d = Ok (Some c) /\
       (forall k v,
          set_of c !! k = Some v <->
          diff_added (diff_dicts (fields d) raw) !! k = Some v \/
          (diff_changed (diff_dicts (fields d) raw) !! k = Some v /\
           both_int (fields d) raw k = false)) /\
       (forall k v, set_of c !! k = Some v -> fields d !! k = Some v) /\
       unset_of c = diff_removed (diff_dicts (fields d) raw)).
Proof.
  split; [apply changes_no_snapshot|].
  intros raw Hraw Hne.
  destruct (changes_spec d raw Hraw Hne) as (c & Hc & Hun & Hsame & Hchg).
  assert (Hset : forall k v,
            set_of c !! k = Some v <->
            diff_added (diff_dicts (fields d) raw) !! k = Some v \/
            (diff_changed (diff_dicts (fields d) raw) !! k = Some v /\
             both_int (fields d) raw k = false)).
  { intros k v.
    destruct (diff_changed (diff_dicts (fields d) raw) !! k) as [a|] eqn:Hk.
    - apply diff_changed_lookup in Hk as [Ha (b & Hb & Hneq)].
      specialize (Hchg k a b Ha Hb Hneq).
      pose proof (inc_value_both_int _ _ k a b Ha Hb) as Hbi.
      assert (Hadd : diff_added (diff_dicts (fields d) raw) !! k = None).
      { destruct (diff_added (diff_dicts (fields d) raw) !! k) eqn:Hadd;
          [|reflexivity].
        apply diff_added_lookup in Hadd as [_ ?]. congruence. }
      rewrite Hadd.
      destruct (inc_value a b) as [delta|].
      + destruct Hchg as [_ ->]. split; [discriminate|].
        intros [?|[_ Hf]]; [discriminate|].
        apply Hbi in Hf. discriminate.
      + destruct Hchg as [-> _]. split.
        * intros ->. right. split; [reflexivity|]. apply Hbi. reflexivity.
        * intros [?|[-> _]]; [discriminate|reflexivity].
    - destruct (Hsame k Hk) as [-> _]. split; [auto|].
      intros [?|[? _]]; [assumption|discriminate]. }
  exists c. split; [exact Hc|]. split; [exact Hset|]. split; [|exact Hun].
  intros k v Hv. apply Hset in Hv as [Hv|[Hv _]].
  - apply diff_added_lookup in Hv. tauto.
  - apply diff_changed_lookup in Hv. tauto.
Qed.

Lemma scenario_raw_nonempty :
  (<["tag" := VStr "x"]> (<["count" := VInt 5]> ∅) : dict) <> ∅.
Proof.
  intros H. apply (f_equal (fun m : dict => m !! "tag")) in H.
  vm_compute in H. discriminate H.
Qed.

Lemma changes_maps_diff_witness :
  changes empty_snapshot_doc = Ok None /\
  exists c,
    changes scenario_doc = Ok (Some c) /\
    (forall k v,
       set_of c !! k = Some v <->
       diff_added (diff_dicts (fields scenario_doc)
                     (<["tag" := VStr "x"]> (<["count" := VInt 5]> ∅))) !! k
         = Some v \/
       (diff_changed (diff_dicts (fields scenario_doc)
                        (<["tag" := VStr "x"]> (<["count" := VInt 5]> ∅))) !! k
          = Some v /\
        both_int (fields scenario_doc)
          (<["tag" := VStr "x"]> (<["count" := VInt 5]> ∅)) k = false)) /\
    (forall k v, set_of c !! k = Some v -> fields scenario_doc !! k = Some v) /\
    unset_of c =
      diff_removed (diff_dicts (fields scenario_doc)
                      (<["tag" := VStr "x"]> (<["count" := VInt 5]> ∅))).
Proof.
  split.
  - apply (proj1 (changes_maps_diff empty_snapshot_doc)). right. reflexivity.
  - apply (proj2 (changes_maps_diff scenario_doc)).
    + reflexivity.
    + exact scenario_raw_nonempty.
Defined.



(** A [long] is not an instance of [int]: a counter that goes from 5 to
    2^64, or to the [long] 7, is reported under [$set]; and the
    difference of two instances of [int] that does not fit a machine
    word is a [long]. *)
Example changes_long :
  changes (counter_set_to (VLong 18446744073709551616)) =
    Ok (Some {| cs_set := Some {["count" := VLong 18446744073709551616]};
                cs_inc := None; cs_unset := None |}) /\
  changes (counter_set_to (VInt 18446744073709551616)) =
    Ok (Some {| cs_set := Some {["count" := VInt 18446744073709551616]};
                cs_inc := None; cs_unset := None |}) /\
  changes (counter_set_to (VLong 7)) =
    Ok (Some {| cs_set := Some {["count" := VLong 7]};
                cs_inc := None; cs_unset := None |}) /\
  changes (counter_set_to (VBool true)) =
    Ok (Some {| cs_set := None;
                cs_inc := Some {["count" := VInt (-4)]};
                cs_unset := None |}) /\
  changes {| fields := {["count" := VInt maxint]};
             _raw := Some {["count" := VInt (-1)]};
             _in_db := true; _history := None |} =
    Ok (Some {| cs_set := None;
                cs_inc := Some {["count" := VLong 9223372036854775808]};
                cs_unset := None |}).
Proof. repeat (split; [vm_compute; reflexivity|]). vm_compute. reflexivity. Qed.

(** ** Running the methods *)

Lemma self_contains_eq k s :
  self_contains k s =
  (Ok (match fields (self s) !! k with Some _ => true | None => false end), s).
Proof.
  unfold self_contains, gets. destruct (fields (self s) !! k); reflexivity.
Qed.

Lemma validate_dict_raises st content e :
  validate_dict st content = Raise e ->
  exists offending, e = ValidationError offending /\ offending <> [].
Proof.
  unfold validate_dict.
  destruct (flat_map (check_field st content) (struct_fields st)) as [|o os];
    intros [= <-]. eexists. split; [reflexivity | discriminate].
Qed.

(** The part of [save] that follows validation. *)
Lemma save_after_validation cls s :
  (__validate__ cls = false \/
   validate_dict (struct cls) (fields (self s)) = Ok tt) ->
  let d := self s in
  let w := world s in
  let i := default (VOid (oid_counter w)) (fields d !! "_id") in
  let f := <["_id" := i]> (fields d) in
  let d1 := {| fields := f;
               _raw := Some (default (deepcopy f) (_raw d));
               _in_db := _in_db d; _history := _history d |} in
  let n := match fields d !! "_id" with
           | Some _ => oid_counter w
           | None => N.succ (oid_counter w)
           end in
  let q := ReqSave f (_get_write_options cls {["manipulate" := VBool true]}) in
  save cls s =
  if reachable (col w)
  then (Ok i,
        {| self := set_in_db true d1;
           world := {| col := {| records := upsert {["_id" := i]} f (records (col w));
                                 journal := journal (col w) ++ [q];
                                 reachable := true |};
                       oid_counter := n |} |})
  else (Raise ConnectionFailure,
        {| self := d1;
           world := {| col := {| records := records (col w);
                                 journal := journal (col w) ++ [q];
                                 reachable := false |};
                       oid_counter := n |} |}).
Proof.
  intros Hval. destruct s as [[f0 raw0 db0 h0] [[rs jn up] n0]].
  unfold save, bind. cbn [self fields world].
  assert (Hv : (if __validate__ cls then validate cls else ret tt)
                 {| self := {| fields := f0; _raw := raw0; _in_db := db0;
                               _history := h0 |};
                    world := {| col := {| records := rs; journal := jn;
                                          reachable := up |};
                                oid_counter := n0 |} |}
               = (Ok tt, {| self := {| fields := f0; _raw := raw0; _in_db := db0;
                                       _history := h0 |};
                            world := {| col := {| records := rs; journal := jn;
                                                  reachable := up |};
                                        oid_counter := n0 |} |})).
  { destruct Hval as [-> | Hok]; [reflexivity|].
    destruct (__validate__ cls); [|reflexivity].
    unfold validate. cbn. cbn in Hok. rewrite Hok. reflexivity. }
  rewrite Hv. rewrite self_contains_eq. cbn [self fields].
  destruct (f0 !! "_id") as [i0|] eqn:Hid.
  - assert (Hf : <["_id" := i0]> f0 = f0) by (apply insert_id; exact Hid).
    cbn. rewrite Hf.
    destruct raw0 as [r0|]; cbn; rewrite Hid; cbn;
      destruct up; cbn; rewrite ?Hf; reflexivity.
  - cbn.
    destruct raw0 as [r0|]; cbn; rewrite lookup_insert_eq; cbn;
      destruct up; cbn; reflexivity.
Qed.

(** ** [save] *)

(** C5.  For every Document of a type with validation enabled whose
    content fails validation, [save] raises the validation error and
    nothing else happens: the instance (identifier, snapshot, [_in_db])
    and the storage (no write submitted, no identifier drawn) are as
    before.  Validation is enabled in the class attributes [Document]
    declares. *)
Theorem save_validation_abort (cls : DocClass) (s : State) (e : exn) :
  __validate__ cls = true ->
  validate_dict (struct cls) (fields (self s)) = Raise e ->
  save cls s = (Raise e, s) /\
  (exists offending, e = ValidationError offending /\ offending <> []) /\
  fields (self (snd (save cls s))) = fields (self s) /\
  _raw (self (snd (save cls s))) = _raw (self s) /\
  _in_db (self (snd (save cls s))) = _in_db (self s) /\
  journal (col (world (snd (save cls s)))) = journal (col (world s)) /\
  oid_counter (world (snd (save cls s))) = oid_counter (world s) /\
  (forall st, __validate__ (Document_class st) = true).
Proof.
  intros Hon Hbad.
  assert (Hrun : save cls s = (Raise e, s)).
  { unfold save, bind. rewrite Hon. unfold validate. rewrite Hbad.
    reflexivity. }
  rewrite Hrun. cbn [snd].
  split; [reflexivity|].
  split; [eapply validate_dict_raises; exact Hbad|].
  repeat split; reflexivity.
Qed.

Lemma save_validation_abort_witness :
  save Counter {| self := invalid_doc; world := world0 |} =
    (Raise (ValidationError [("count", Mismatch)]),
     {| self := invalid_doc; world := world0 |}) /\
  journal (col (world (snd (save Counter
                              {| self := invalid_doc; world := world0 |})))) = [].
Proof.
  destruct (save_validation_abort Counter
              {| self := invalid_doc; world := world0 |}
              (ValidationError [("count", Mismatch)]))
    as (Hrun & _ & _ & _ & _ & Hj & _).
  - reflexivity.
  - vm_compute. reflexivity.
  - split; [exact Hrun | exact Hj].
Defined.

(** C4.  For every Document on which [save] passes validation and reaches
    the write: if no identifier was set, one is generated and stored in
    the document; if no snapshot existed, the snapshot is a deep copy of
    the current content, identifier included, and it is in place before
    the write is submitted (whether the write then succeeds or raises);
    the full current content is submitted as a write that replaces the
    record of that identifier or inserts it; and when [save] succeeds,
    [_in_db] is true and the identifier used is returned. *)
Theorem save_effects (cls : DocClass) (s s' : State) (out : outcome value) :
  save cls s = (out, s') ->
  (forall offending, out <> Raise (ValidationError offending)) ->
  exists i,
    fields (self s') !! "_id" = Some i /\
    (fields (self s) !! "_id" = None ->
     i = VOid (oid_counter (world s)) /\
     fields (self s') = <["_id" := i]> (fields (self s))) /\
    (forall i0, fields (self s) !! "_id" = Some i0 ->
     i = i0 /\ fields (self s') = fields (self s)) /\
    (_raw (self s) = None -> _raw (self s') = Some (deepcopy (fields (self s')))) /\
    (forall r, _raw (self s) = Some r -> _raw (self s') = Some r) /\
    journal (col (world s')) =
      (journal (col (world s)) ++
       [ReqSave (fields (self s'))
          (_get_write_options cls {["manipulate" := VBool true]})])%list /\
    (forall rv, out = Ok rv ->
     rv = i /\ _in_db (self s') = true /\
     records (col (world s')) =
       upsert {["_id" := i]} (fields (self s')) (records (col (world s)))) /\
    (forall e, out = Raise e ->
     _in_db (self s') = _in_db (self s) /\
     records (col (world s')) = records (col (world s))).
Proof.
  intros Hrun Hnv.
  assert (Hval : __validate__ cls = false \/
                 validate_dict (struct cls) (fields (self s)) = Ok tt).
  { destruct (__validate__ cls) eqn:Hon; [right | left; reflexivity].
    destruct (validate_dict (struct cls) (fields (self s))) as [[]|e] eqn:Hv;
      [reflexivity|].
    exfalso.
    assert (Hab : save cls s = (Raise e, s)).
    { unfold save, bind. rewrite Hon. unfold validate. rewrite Hv.
      reflexivity. }
    destruct (validate_dict_raises _ _ _ Hv) as (off & -> & _).
    rewrite Hab in Hrun. injection Hrun as <- _. eapply Hnv. reflexivity. }
  rewrite (save_after_validation cls s Hval) in Hrun. clear Hval Hnv.
  destruct s as [[f0 raw0 db0 h0] [[rs jn up] n0]].
  cbn [self world fields _raw _in_db _history col records journal reachable
       oid_counter] in *.
  assert (Hins : forall i0, f0 !! "_id" = Some i0 ->
            default (VOid n0) (f0 !! "_id") = i0 /\
            <["_id" := default (VOid n0) (f0 !! "_id")]> f0 = f0).
  { intros i0 Hi0. rewrite Hi0. cbn. split; [reflexivity|].
    apply insert_id. exact Hi0. }
  exists (default (VOid n0) (f0 !! "_id")).
  destruct up; injection Hrun as <- <-; cbn;
    (split; [apply lookup_insert_eq|]);
    (split; [intros ->; cbn; auto|]);
    (split; [exact Hins|]);
    (split; [intros ->; reflexivity|]);
    (split; [intros r ->; reflexivity|]);
    (split; [reflexivity|]);
    split; intros x [= <-]; auto.
Qed.

Lemma save_effects_witness :
  exists i,
    fields (self (snd (save Counter {| self := fresh_doc; world := world0 |})))
      !! "_id" = Some i /\
    i = VOid 0 /\
    fst (save Counter {| self := fresh_doc; world := world0 |}) = Ok i /\
    _in_db (self (snd (save Counter {| self := fresh_doc; world := world0 |})))
      = true.
Proof.
  destruct (save_effects Counter {| self := fresh_doc; world := world0 |}
              (snd (save Counter {| self := fresh_doc; world := world0 |}))
              (fst (save Counter {| self := fresh_doc; world := world0 |})))
    as (i & Hid & Hgen & _ & _ & _ & _ & Hok & _).
  - vm_compute. reflexivity.
  - intros offending H. vm_compute in H. discriminate H.
  - exists i. split; [exact Hid|].
    destruct Hgen as [Hi _]; [vm_compute; reflexivity|].
    split; [exact Hi|].
    destruct (Hok (VOid 0)) as (Hrv & Hdb & _); [vm_compute; reflexivity|].
    split; [rewrite <- Hrv; vm_compute; reflexivity | exact Hdb].
Defined.

(** ** [remove] *)

Lemma remove_run cls s :
  let d := self s in
  let w := world s in
  remove cls s =
  if _in_db d then
    match fields d !! "_id" with
    | None =>
        (Raise (KeyError "_id"),
         {| self := set_history (Some (fields d)) d; world := w |})
    | Some i =>
        let c := {| records := records (col w);
                    journal := (journal (col w) ++
                                [ReqRemove i (_get_write_options cls ∅)])%list;
                    reachable := reachable (col w) |} in
        if reachable (col w)
        then (Ok tt,
              {| self := {| fields := ∅; _raw := _raw d; _in_db := false;
                            _history := Some (fields d) |};
                 world := {| col := {| records :=
                                         List.filter
                                           (fun r => negb (matches {["_id" := i]} r))
                                           (records (col w));
                                       journal := journal c;
                                       reachable := true |};
                             oid_counter := oid_counter w |} |})
        else (Raise ConnectionFailure,
              {| self := set_history (Some (fields d)) d;
                 world := {| col := c; oid_counter := oid_counter w |} |})
    end
  else (Raise (AssertionError
                 "Could not remove document which is not in database"), s).
Proof.
  destruct s as [[f0 raw0 db0 h0] [[rs jn up] n0]].
  unfold remove, bind. cbn.
  destruct db0; [|reflexivity]. cbn.
  unfold self_getitem, getitem. cbn.
  destruct (f0 !! "_id") as [i|]; [|reflexivity]. cbn.
  destruct up; reflexivity.
Qed.

(** C7.  For every Document, [remove] fails when [_in_db] is false, and
    then submits no delete and changes nothing; when [_in_db] is true (and
    the document carries its identifier), it submits a delete scoped by
    the identifier and, on success, clears the field content and sets
    [_in_db] to false. *)
Theorem remove_spec (cls : DocClass) (s : State) :
  (_in_db (self s) = false ->
   remove cls s =
   (Raise (AssertionError "Could not remove document which is not in database"),
    s)) /\
  (forall i out s',
     _in_db (self s) = true ->
     fields (self s) !! "_id" = Some i ->
     remove cls s = (out, s') ->
     journal (col (world s')) =
       (journal (col (world s)) ++
        [ReqRemove i (_get_write_options cls ∅)])%list /\
     (reachable (col (world s)) = true -> out = Ok tt) /\
     (out = Ok tt ->
      fields (self s') = ∅ /\ _in_db (self s') = false /\
      records (col (world s')) =
        List.filter (fun r => negb (matches {["_id" := i]} r))
          (records (col (world s))))).
Proof.
  rewrite remove_run. cbv zeta. split.
  - intros ->. reflexivity.
  - intros i out s' -> -> Hrun.
    destruct (reachable (col (world s))); injection Hrun as <- <-; cbn;
      repeat split; auto; discriminate.
Qed.

Lemma remove_spec_witness :
  remove Counter {| self := fresh_doc; world := world0 |} =
    (Raise (AssertionError "Could not remove document which is not in database"),
     {| self := fresh_doc; world := world0 |}) /\
  fields (self (snd (remove Counter
                       {| self := loaded_doc; world := stored_world |}))) = ∅ /\
  _in_db (self (snd (remove Counter
                       {| self := loaded_doc; world := stored_world |}))) = false /\
  journal (col (world (snd (remove Counter
                              {| self := loaded_doc; world := stored_world |}))))
    = [ReqRemove (VOid 7) (_get_write_options Counter ∅)].
Proof.
  split.
  - apply (proj1 (remove_spec Counter {| self := fresh_doc; world := world0 |})).
    reflexivity.
  - destruct (proj2 (remove_spec Counter
                       {| self := loaded_doc; world := stored_world |})
                (VOid 7)
                (fst (remove Counter {| self := loaded_doc; world := stored_world |}))
                (snd (remove Counter {| self := loaded_doc; world := stored_world |})))
      as (Hj & Hup & Hok).
    + reflexivity.
    + vm_compute. reflexivity.
    + vm_compute. reflexivity.
    + destruct Hok as (Hf & Hdb & _); [apply Hup; reflexivity|].
      split; [exact Hf|]. split; [exact Hdb | exact Hj].
Defined.

(** ** [pull] *)

Lemma pull_run s i :
  fields (self s) !! "_id" = Some i ->
  let d := self s in
  let w := world s in
  let c := {| records := records (col w);
              journal := (journal (col w) ++ [ReqFind {["_id" := i]}])%list;
              reachable := reachable (col w) |} in
  let w' := {| col := c; oid_counter := oid_counter w |} in
  pull s =
  if reachable (col w) then
    match List.filter (matches {["_id" := i]}) (records (col w)) with
    | doc :: _ =>
        (Ok tt, {| self := set_fields (doc ∪ ∅) (set_fields ∅ d); world := w' |})
    | [] =>
        (Raise (SimplemongoException
                  "Document was deleted before `pull` was called"),
         {| self := d; world := w' |})
    end
  else (Raise ConnectionFailure, {| self := d; world := w' |}).
Proof.
  intros Hid. destruct s as [[f0 raw0 db0 h0] [[rs jn up] n0]].
  cbn in Hid. unfold pull, identifier, bind, self_getitem, getitem. cbn.
  rewrite Hid. cbn. unfold except_StopIteration, on_world, on_col. cbn.
  destruct up; cbn; [|reflexivity].
  destruct (List.filter (matches {["_id" := i]}) rs); reflexivity.
Qed.

(** C8.  For every Document that carries its identifier, [pull] queries
    the storage by that identifier; if no record exists it raises
    [SimplemongoException], which is not the [ObjectNotFound] of the
    generic lookups, and leaves the instance as it was; on success it
    replaces the content of the instance by the record read; in every
    case the snapshot is unchanged. *)
Theorem pull_spec (s s' : State) (i : value) (out : outcome unit) :
  fields (self s) !! "_id" = Some i ->
  pull s = (out, s') ->
  journal (col (world s')) =
    (journal (col (world s)) ++ [ReqFind {["_id" := i]}])%list /\
  _raw (self s') = _raw (self s) /\
  (reachable (col (world s)) = true ->
   match List.filter (matches {["_id" := i]}) (records (col (world s))) with
   | [] =>
       out = Raise (SimplemongoException
                      "Document was deleted before `pull` was called") /\
       (forall msg, out <> Raise (ObjectNotFound msg)) /\
       self s' = self s
   | doc :: _ =>
       out = Ok tt /\ fields (self s') = doc /\
       _in_db (self s') = _in_db (self s)
   end).
Proof.
  intros Hid Hrun. rewrite (pull_run s i Hid) in Hrun. cbv zeta in Hrun.
  destruct (reachable (col (world s))).
  - destruct (List.filter (matches {["_id" := i]}) (records (col (world s))))
      as [|doc rest]; injection Hrun as <- <-; cbn.
    + repeat split; auto; try (intros msg); try discriminate.
    + repeat split; auto; try apply (right_id_L ∅ (∪)).
  - injection Hrun as <- <-. cbn. repeat split; auto; try discriminate.
Qed.


Lemma pull_spec_witness :
  (journal (col (world (snd (pull vanished_state)))) =
     (journal (col (world vanished_state)) ++ [ReqFind {["_id" := VOid 7]}])%list /\
   _raw (self (snd (pull vanished_state))) = _raw (self vanished_state) /\
   (reachable (col (world vanished_state)) = true ->
    match List.filter (matches {["_id" := VOid 7]})
            (records (col (world vanished_state))) with
    | [] =>
        fst (pull vanished_state) =
          Raise (SimplemongoException
                   "Document was deleted before `pull` was called") /\
        (forall msg, fst (pull vanished_state) <> Raise (ObjectNotFound msg)) /\
        self (snd (pull vanished_state)) = self vanished_state
    | doc :: _ =>
        fst (pull vanished_state) = Ok tt /\
        fields (self (snd (pull vanished_state))) = doc /\
        _in_db (self (snd (pull vanished_state))) = _in_db (self vanished_state)
    end)) /\
  fst (pull stored_state) = Ok tt /\
  fields (self (snd (pull stored_state))) = stored_record.
Proof.
  split.
  - apply (pull_spec vanished_state (snd (pull vanished_state)) (VOid 7)
             (fst (pull vanished_state))).
    + vm_compute. reflexivity.
    + vm_compute. reflexivity.
  - split; vm_compute; reflexivity.
Defined.

(** ** [new] *)

(** C9, as stated, fails when the caller passes an [_id]: the guard
    ['_id' not in kwargs] keeps the caller's identifier and draws no
    fresh one. *)
Lemma new_keeps_given_id_cex :
  new Counter {["_id" := VStr "mine"]} world0 =
  (Ok {| fields := {["_id" := VStr "mine"]}; _raw := None;
         _in_db := false; _history := None |},
   world0).
Proof. vm_compute. reflexivity. Qed.

(** C9 (amended).  For every invocation of [Document.new], the created
    instance has [_in_db] false and no snapshot; when the caller supplied
    no [_id] a fresh identifier is assigned to the instance, and when the
    caller supplied one it is kept and no identifier is generated. *)
Theorem new_spec (cls : DocClass) (kwargs : dict) (w : World) :
  exists d w',
    new cls kwargs w = (Ok d, w') /\
    _in_db d = false /\
    _raw d = None /\
    match kwargs !! "_id" with
    | Some i => fields d = kwargs /\ w' = w
    | None =>
        fields d = <["_id" := VOid (oid_counter w)]> kwargs /\
        oid_counter w' = N.succ (oid_counter w) /\
        col w' = col w
    end.
Proof.
  unfold new, bind, build_instance.
  destruct (kwargs !! "_id") as [i|]; cbn;
    eexists _, _; repeat split; reflexivity.
Qed.

(** ** [update_changes] *)

Lemma update_changes_run cls kwargs s c i :
  changes (self s) = Ok (Some c) ->
  cs_truthy c = true ->
  fields (self s) !! "_id" = Some i ->
  let w := world s in
  let q := ReqUpdate {["_id" := i]} c
             (<["multi" := VBool false]> (_get_write_options cls kwargs)) in
  update_changes cls kwargs s =
  if reachable (col w)
  then (Ok tt,
        {| self := self s;
           world := {| col := {| records :=
                                   update_first {["_id" := i]} c (records (col w));
                                 journal := (journal (col w) ++ [q])%list;
                                 reachable := true |};
                       oid_counter := oid_counter w |} |})
  else (Raise ConnectionFailure,
        {| self := self s;
           world := {| col := {| records := records (col w);
                                 journal := (journal (col w) ++ [q])%list;
                                 reachable := false |};
                       oid_counter := oid_counter w |} |}).
Proof.
  intros Hc Ht Hid. destruct s as [d [[rs jn up] n0]]. cbn in *.
  unfold update_changes, bind, self_changes. cbn. rewrite Hc, Ht.
  unfold update_self, bind, identifier, bind, self_getitem, getitem. cbn.
  rewrite Hid. cbn. destruct up; reflexivity.
Qed.

Lemma update_changes_self cls kwargs s :
  self (snd (update_changes cls kwargs s)) = self s.
Proof.
  destruct s as [d [[rs jn up] n0]].
  unfold update_changes, bind, self_changes. cbn.
  destruct (changes d) as [[c|]|e]; cbn; try reflexivity.
  destruct (cs_truthy c); cbn; [|reflexivity].
  unfold update_self, bind, identifier, bind, self_getitem, getitem. cbn.
  destruct (fields d !! "_id"); cbn; [|reflexivity].
  destruct up; reflexivity.
Qed.

(** C3, as stated, fails: the loaded counter, incremented from 5 to 7,
    submits [$inc: count by 2]; [update_changes] succeeds and the next
    [changes] is that same instruction again, because the snapshot is
    still the record as loaded ([count] 5) while the content has [count]
    7. *)
Lemma update_changes_repeat_cex :
  changes (self stored_state) =
    Ok (Some {| cs_set := None; cs_inc := Some {["count" := VInt 2]};
                cs_unset := None |}) /\
  fst (update_changes Counter ∅ stored_state) = Ok tt /\
  journal (col (world (snd (update_changes Counter ∅ stored_state)))) =
    [ReqUpdate {["_id" := VOid 7]}
       {| cs_set := None; cs_inc := Some {["count" := VInt 2]};
          cs_unset := None |}
       (<["multi" := VBool false]> (_get_write_options Counter ∅))] /\
  changes (self (snd (update_changes Counter ∅ stored_state))) =
    Ok (Some {| cs_set := None; cs_inc := Some {["count" := VInt 2]};
                cs_unset := None |}) /\
  _raw (self (snd (update_changes Counter ∅ stored_state))) =
    Some stored_record /\
  stored_record !! "count" = Some (VInt 5) /\
  fields (self (snd (update_changes Counter ∅ stored_state))) !! "count" =
    Some (VInt 7).
Proof.
  split; [vm_compute; reflexivity|].
  split; [vm_compute; reflexivity|].
  split; [vm_compute; reflexivity|].
  split; [vm_compute; reflexivity|].
  split; [vm_compute; reflexivity|].
  split; vm_compute; reflexivity.
Qed.

(** C3 (amended).  For every Document with a snapshot, a successful
    [update_changes] call that submitted a non-empty change set leaves the
    content and the snapshot of the instance as they were (the snapshot is
    not re-captured), so an immediately following computation of [changes]
    yields that same non-empty change set again. *)
Theorem update_changes_keeps_changes (cls : DocClass) (kwargs : dict)
    (s s' : State) (c : ChangeSet) :
  changes (self s) = Ok (Some c) ->
  cs_truthy c = true ->
  update_changes cls kwargs s = (Ok tt, s') ->
  self s' = self s /\
  _raw (self s') = _raw (self s) /\
  changes (self s') = Ok (Some c) /\
  exists i,
    fields (self s) !! "_id" = Some i /\
    journal (col (world s')) =
      (journal (col (world s)) ++
       [ReqUpdate {["_id" := i]} c
          (<["multi" := VBool false]> (_get_write_options cls kwargs))])%list.
Proof.
  intros Hc Ht Hrun.
  assert (Hself : self s' = self s).
  { pose proof (update_changes_self cls kwargs s) as H.
    rewrite Hrun in H. exact H. }
  rewrite Hself. split; [reflexivity|]. split; [reflexivity|].
  split; [exact Hc|].
  destruct (fields (self s) !! "_id") as [i|] eqn:Hid.
  - exists i. split; [reflexivity|].
    rewrite (update_changes_run cls kwargs s c i Hc Ht Hid) in Hrun.
    cbv zeta in Hrun.
    destruct (reachable (col (world s))); [|discriminate Hrun].
    injection Hrun as <-. reflexivity.
  - exfalso. destruct s as [d [[rs jn up] n0]]. cbn in *.
    unfold update_changes, bind, self_changes in Hrun. cbn in Hrun.
    rewrite Hc, Ht in Hrun.
    unfold update_self, bind, identifier, bind, self_getitem, getitem in Hrun.
    cbn in Hrun. rewrite Hid in Hrun. discriminate Hrun.
Qed.

Lemma update_changes_keeps_changes_witness :
  self (snd (update_changes Counter ∅ stored_state)) = self stored_state /\
  changes (self (snd (update_changes Counter ∅ stored_state))) =
    Ok (Some {| cs_set := None; cs_inc := Some {["count" := VInt 2]};
                cs_unset := None |}).
Proof.
  destruct (update_changes_keeps_changes Counter ∅ stored_state
              (snd (update_changes Counter ∅ stored_state))
              {| cs_set := None; cs_inc := Some {["count" := VInt 2]};
                 cs_unset := None |})
    as (Hself & _ & Hch & _).
  - vm_compute. reflexivity.
  - reflexivity.
  - vm_compute. reflexivity.
  - split; [exact Hself | exact Hch].
Defined.

(** ** Reuse after [remove] *)

Lemma remove_raw cls s : _raw (self (snd (remove cls s))) = _raw (self s).
Proof.
  rewrite remove_run. cbv zeta.
  destruct (_in_db (self s)); [|reflexivity].
  destruct (fields (self s) !! "_id"); [|reflexivity].
  destruct (reachable (col (world s))); reflexivity.
Qed.

Lemma save_not_rejected cls s rv s' :
  save cls s = (Ok rv, s') ->
  __validate__ cls = false \/
  validate_dict (struct cls) (fields (self s)) = Ok tt.
Proof.
  intros Hrun.
  destruct (__validate__ cls) eqn:Hon; [right | left; reflexivity].
  destruct (validate_dict (struct cls) (fields (self s))) as [[]|e] eqn:Hv;
    [reflexivity|].
  exfalso. unfold save, bind in Hrun. rewrite Hon in Hrun.
  unfold validate in Hrun. rewrite Hv in Hrun. discriminate Hrun.
Qed.

Lemma save_keeps_snapshot cls s rv s' r :
  save cls s = (Ok rv, s') -> _raw (self s) = Some r -> _raw (self s') = Some r.
Proof.
  intros Hrun Hr.
  rewrite (save_after_validation cls s (save_not_rejected _ _ _ _ Hrun)) in Hrun.
  cbv zeta in Hrun.
  destruct (reachable (col (world s))); [|discriminate Hrun].
  injection Hrun as _ <-. cbn. rewrite Hr. reflexivity.
Qed.

(** C10.  A successful [remove] leaves the snapshot [_raw] as it was; when
    the removed instance is given new content and saved again, [save]
    finds a snapshot and does not re-capture it, so the next [changes]
    compares the new content with the snapshot from before the removal:
    its [$unset] lists the keys of the old snapshot that the new content
    lacks and its [$set] holds the keys the old snapshot lacks. *)
Theorem remove_then_save_stale_snapshot (cls : DocClass) (s s1 s2 : State)
    (r content : dict) (w : World) (rv : value) :
  _raw (self s) = Some r ->
  remove cls s = (Ok tt, s1) ->
  save cls {| self := set_fields content (self s1); world := w |} = (Ok rv, s2) ->
  _raw (self s1) = Some r /\
  fields (self s1) = ∅ /\
  _raw (self s2) = Some r /\
  (r <> ∅ ->
   exists c,
     changes (self s2) = Ok (Some c) /\
     unset_of c = diff_removed (diff_dicts (fields (self s2)) r) /\
     (forall k v,
        diff_added (diff_dicts (fields (self s2)) r) !! k = Some v ->
        set_of c !! k = Some v)).
Proof.
  intros Hr Hrem Hsave.
  assert (Hr1 : _raw (self s1) = Some r).
  { pose proof (remove_raw cls s) as H. rewrite Hrem in H. cbn in H.
    rewrite H. exact Hr. }
  assert (Hf1 : fields (self s1) = ∅).
  { rewrite remove_run in Hrem. cbv zeta in Hrem.
    destruct (_in_db (self s)); [|discriminate Hrem].
    destruct (fields (self s) !! "_id"); [|discriminate Hrem].
    destruct (reachable (col (world s))); [|discriminate Hrem].
    injection Hrem as <-. reflexivity. }
  assert (Hr2 : _raw (self s2) = Some r).
  { eapply save_keeps_snapshot; [exact Hsave|]. cbn. exact Hr1. }
  split; [exact Hr1|]. split; [exact Hf1|]. split; [exact Hr2|].
  intros Hne.
  destruct (changes_spec (self s2) r Hr2 Hne) as (c & Hc & Hun & Hsame & _).
  exists c. split; [exact Hc|]. split; [exact Hun|].
  intros k v Hadd.
  destruct (Hsame k) as [-> _]; [|exact Hadd].
  destruct (diff_changed (diff_dicts (fields (self s2)) r) !! k) eqn:Hch;
    [|reflexivity].
  apply diff_changed_lookup in Hch as [_ (b & Hb & _)].
  apply diff_added_lookup in Hadd as [_ Hnone]. congruence.
Qed.

Lemma remove_then_save_stale_snapshot_witness :
  _raw (self removed_state) = Some stored_record /\
  fields (self removed_state) = ∅ /\
  _raw (self resaved_state) = Some stored_record /\
  (stored_record <> ∅ ->
   exists c,
     changes (self resaved_state) = Ok (Some c) /\
     unset_of c = diff_removed (diff_dicts (fields (self resaved_state))
                                  stored_record) /\
     (forall k v,
        diff_added (diff_dicts (fields (self resaved_state)) stored_record) !! k
          = Some v ->
        set_of c !! k = Some v)).
Proof.
  apply (remove_then_save_stale_snapshot Counter
           {| self := loaded_doc; world := stored_world |}
           removed_state resaved_state stored_record
           {["count" := VInt 1]} (world removed_state) (VOid 8)).
  - reflexivity.
  - vm_compute. reflexivity.
  - vm_compute. reflexivity.
Defined.

(** After the reuse the record stored under the new identifier has
    [count] 1, yet [changes] still measures against the removed record
    ([count] 5, identifier 7). *)
Example resaved_changes :
  fields (self resaved_state) = <["count" := VInt 1]> {["_id" := VOid 8]} /\
  exists c,
    changes (self resaved_state) = Ok (Some c) /\
    inc_of c !! "count" = Some (VInt (-4)) /\
    set_of c !! "_id" = Some (VOid 8).
Proof.
  split; [vm_compute; reflexivity|].
  eexists. split; [vm_compute; reflexivity|].
  split; vm_compute; reflexivity.
Qed.

(** ** The snapshot and the live content in the object store *)

Module AliasingFacts.
Import Aliasing.
Local Open Scope nat_scope.
Local Open Scope list_scope.

Lemma val_in_mono (P Q : loc -> Prop) v :
  (forall l, P l -> Q l) -> val_in P v -> val_in Q v.
Proof. destruct v; cbn; auto. Qed.

Lemma obj_in_mono (P Q : loc -> Prop) o :
  (forall l, P l -> Q l) -> obj_in P o -> obj_in Q o.
Proof.
  intros HPQ Ho. unfold obj_in in *. eapply Forall_impl; [exact Ho|].
  intros v. apply val_in_mono. exact HPQ.
Qed.

Lemma closed_lookup h l o :
  closed h -> h !! l = Some o -> obj_in (below (length h)) o.
Proof.
  intros Hc Hl. unfold closed in Hc. rewrite Forall_forall in Hc.
  apply Hc. eapply list_elem_of_lookup_2. exact Hl.
Qed.

Lemma closed_app h ext :
  closed h ->
  Forall (obj_in (below (length (h ++ ext)))) ext ->
  closed (h ++ ext).
Proof.
  intros Hc Hext. unfold closed. apply Forall_app. split; [|exact Hext].
  eapply Forall_impl; [exact Hc|]. intros o. apply obj_in_mono.
  unfold below. intros l Hl. rewrite length_app. lia.
Qed.

Lemma children_with_children o vs :
  length vs = length (children o) -> children (with_children o vs) = vs.
Proof.
  destruct o as [items|items]; cbn; [|reflexivity].
  rewrite length_fmap. intros Hlen. apply snd_zip.
  rewrite length_fmap. lia.
Qed.

Lemma rebuild_with_children o vs xs :
  length vs = length (children o) ->
  rebuild (with_children o vs) xs = rebuild o xs.
Proof.
  destruct o as [items|items]; cbn; [|reflexivity].
  rewrite length_fmap. intros Hlen. f_equal. f_equal. apply fst_zip.
  rewrite length_fmap. lia.
Qed.

Lemma read_all_ext (rd1 rd2 : hval -> option value) vs :
  Forall (fun v => rd1 v = rd2 v) vs -> read_all rd1 vs = read_all rd2 vs.
Proof.
  induction 1 as [|v rest Hv _ IH]; cbn; [reflexivity|].
  rewrite Hv, IH. reflexivity.
Qed.

(** Reading depends only on the objects of a set of locations that no
    reference leaves. *)
Lemma read_agree (P : loc -> Prop) (h1 h2 : heap) :
  (forall l, P l -> h2 !! l = h1 !! l) ->
  (forall l o, P l -> h1 !! l = Some o -> obj_in P o) ->
  forall n v, val_in P v -> read n h2 v = read n h1 v.
Proof.
  intros Hsame Hreg. induction n as [|n IH]; intros v Hv.
  - destruct v; reflexivity.
  - destruct v as [| | | | |l]; try reflexivity. cbn in Hv. cbn [read].
    rewrite (Hsame l Hv). destruct (h1 !! l) as [o|] eqn:Hl; [|reflexivity].
    f_equal. apply read_all_ext.
    eapply Forall_impl; [exact (Hreg l o Hv Hl)|]. intros c Hc. apply IH.
    exact Hc.
Qed.

Lemma reach_in (P : loc -> Prop) (h : heap) v l :
  (forall l o, P l -> h !! l = Some o -> obj_in P o) ->
  val_in P v -> reach h v l -> P l.
Proof.
  intros Hreg Hv Hr. induction Hr as [l|l o c l' Hl Hc _ IH]; [exact Hv|].
  apply IH. cbn in Hv. pose proof (Hreg l o Hv Hl) as Ho.
  unfold obj_in in Ho. rewrite Forall_forall in Ho. apply Ho. exact Hc.
Qed.

Lemma below_region h :
  closed h ->
  forall ext l o, below (length h) l -> (h ++ ext) !! l = Some o ->
                  obj_in (below (length h)) o.
Proof.
  intros Hc ext l o Hl Hlk. unfold below in Hl.
  rewrite lookup_app_l in Hlk by exact Hl.
  eapply closed_lookup; eassumption.
Qed.

Lemma read_app n h ext v :
  closed h -> val_in (below (length h)) v ->
  read n (h ++ ext) v = read n h v.
Proof.
  intros Hc Hv. apply (read_agree (below (length h))); [| |exact Hv].
  - intros l Hl. apply lookup_app_l. exact Hl.
  - intros l o Hl Hlk. eapply closed_lookup; eassumption.
Qed.

Section CopyAll.
Variable f : nat.
Hypothesis deepcopy_f :
  forall h v x,
    closed h -> val_in (below (length h)) v -> read f h v = Some x ->
    exists ext v',
      deepcopy f h v = Some (h ++ ext, v') /\
      Forall (obj_in (from (length h))) ext /\
      closed (h ++ ext) /\
      val_in (below (length (h ++ ext))) v' /\
      val_in (from (length h)) v' /\
      (forall n, read n (h ++ ext) v' = read n h v).

Lemma copy_all_spec vs :
  forall h xs,
    closed h -> Forall (val_in (below (length h))) vs ->
    read_all (read f h) vs = Some xs ->
    exists ext vs',
      copy_all (deepcopy f) h vs = Some (h ++ ext, vs') /\
      Forall (obj_in (from (length h))) ext /\
      closed (h ++ ext) /\
      Forall (val_in (below (length (h ++ ext)))) vs' /\
      Forall (val_in (from (length h))) vs' /\
      (forall n, read_all (read n (h ++ ext)) vs' = read_all (read n h) vs) /\
      length vs' = length vs.
Proof.
  induction vs as [|v rest IH]; intros h xs Hc Hvs Hrd.
  - exists [], []. cbn. rewrite app_nil_r. repeat split; auto.
  - apply Forall_cons in Hvs as [Hv Hrest]. cbn in Hrd.
    destruct (read f h v) as [x0|] eqn:Hx; [|discriminate Hrd].
    destruct (read_all (read f h) rest) as [xs0|] eqn:Hxs; [|discriminate Hrd].
    destruct (deepcopy_f h v x0 Hc Hv Hx)
      as (ea & v' & Hcp & Hfa & Hca & Hba & Hfv & Hra).
    assert (Hrest' : Forall (val_in (below (length (h ++ ea)))) rest).
    { eapply Forall_impl; [exact Hrest|]. intros c. apply val_in_mono.
      unfold below. intros l Hl. rewrite length_app. lia. }
    assert (Hxs' : read_all (read f (h ++ ea)) rest = Some xs0).
    { rewrite <- Hxs. apply read_all_ext.
      eapply Forall_impl; [exact Hrest|]. intros c Hcb.
      apply read_app; assumption. }
    destruct (IH (h ++ ea) xs0 Hca Hrest' Hxs')
      as (eb & rest' & Hcpb & Hfb & Hcb & Hbb & Hfr & Hrb & Hlen).
    exists (ea ++ eb), (v' :: rest').
    rewrite app_assoc. cbn [copy_all]. rewrite Hcp, Hcpb.
    split; [reflexivity|]. split.
    { apply Forall_app. split; [exact Hfa|].
      eapply Forall_impl; [exact Hfb|]. intros o. apply obj_in_mono.
      unfold from. intros l Hl. rewrite length_app in Hl. lia. }
    split; [exact Hcb|]. split.
    { apply Forall_cons. split; [|exact Hbb].
      eapply val_in_mono; [|exact Hba]. unfold below. intros l Hl.
      rewrite length_app. lia. }
    split.
    { apply Forall_cons. split; [exact Hfv|].
      eapply Forall_impl; [exact Hfr|]. intros c. apply val_in_mono.
      unfold from. intros l Hl. rewrite length_app in Hl. lia. }
    split; [|cbn; rewrite Hlen; reflexivity].
    intros n. cbn [read_all].
    rewrite (read_app n (h ++ ea) eb v' Hca Hba), Hra, Hrb.
    f_equal.
    assert (Hr : read_all (read n (h ++ ea)) rest = read_all (read n h) rest).
    { apply read_all_ext. eapply Forall_impl; [exact Hrest|]. intros c Hcb'.
      apply read_app; assumption. }
    rewrite Hr. reflexivity.
Qed.
End CopyAll.

(** [deepcopy] of a value of nesting depth within [fuel], in a store
    without dangling references: it returns, the store grows by new
    objects that refer to new objects only, the old objects stay, and the
    copy reads as the original. *)
Lemma deepcopy_spec f :
  forall h v x,
    closed h -> val_in (below (length h)) v -> read f h v = Some x ->
    exists ext v',
      deepcopy f h v = Some (h ++ ext, v') /\
      Forall (obj_in (from (length h))) ext /\
      closed (h ++ ext) /\
      val_in (below (length (h ++ ext))) v' /\
      val_in (from (length h)) v' /\
      (forall n, read n (h ++ ext) v' = read n h v) /\
      match v with
      | HRef l =>
          exists o vs l',
            h !! l = Some o /\ v' = HRef l' /\
            (h ++ ext) !! l' = Some (with_children o vs) /\
            length vs = length (children o)
      | _ => v' = v
      end.
Proof.
  induction f as [|f IH]; intros h v x Hc Hv Hrd.
  - destruct v; try discriminate Hrd;
      eexists [], _; cbn; rewrite app_nil_r; repeat split; auto.
  - destruct v as [| | | | |l];
      try (eexists [], _; cbn; rewrite app_nil_r; repeat split; auto; fail).
    cbn [read] in Hrd. cbn in Hv.
    destruct (h !! l) as [o|] eqn:Hl; [|discriminate Hrd].
    destruct (read_all (read f h) (children o)) as [xs|] eqn:Hxs;
      [|discriminate Hrd].
    pose proof (closed_lookup h l o Hc Hl) as Ho.
    destruct (copy_all_spec f
                (fun h v x Hc Hv Hx =>
                   match IH h v x Hc Hv Hx with
                   | ex_intro _ e (ex_intro _ v' (conj a (conj b (conj c
                       (conj d (conj g (conj r _))))))) =>
                       ex_intro _ e (ex_intro _ v' (conj a (conj b (conj c
                         (conj d (conj g r))))))
                   end)
                (children o) h xs Hc Ho Hxs)
      as (e1 & vs & Hcp & Hf1 & Hc1 & Hb1 & Hfr & Hr1 & Hlen).
    set (o' := with_children o vs).
    assert (Hch : children o' = vs) by (apply children_with_children; exact Hlen).
    exists (e1 ++ [o']), (HRef (length (h ++ e1))).
    rewrite app_assoc. cbn [deepcopy]. rewrite Hl, Hcp.
    split; [reflexivity|]. split.
    { apply Forall_app. split; [exact Hf1|]. apply Forall_singleton.
      unfold obj_in. rewrite Hch. exact Hfr. }
    assert (Hc' : closed ((h ++ e1) ++ [o'])).
    { apply closed_app; [exact Hc1|]. apply Forall_singleton.
      unfold obj_in. rewrite Hch. eapply Forall_impl; [exact Hb1|].
      intros c. apply val_in_mono. unfold below. intros k Hk.
      rewrite length_app. cbn. lia. }
    split; [exact Hc'|]. split.
    { cbn. unfold below. rewrite (length_app (h ++ e1)). cbn. lia. }
    split.
    { cbn. unfold from. rewrite length_app. lia. }
    assert (Hlk : ((h ++ e1) ++ [o']) !! length (h ++ e1) = Some o').
    { rewrite lookup_app_r by lia. rewrite Nat.sub_diag. reflexivity. }
    split.
    { intros [|n]; [reflexivity|]. cbn [read]. rewrite Hlk, Hl, Hch.
      assert (Hr : read_all (read n ((h ++ e1) ++ [o'])) vs =
                   read_all (read n h) (children o)).
      { rewrite <- Hr1. apply read_all_ext.
        eapply Forall_impl; [exact Hb1|]. intros c Hcb.
        apply read_app; assumption. }
      rewrite Hr. destruct (read_all (read n h) (children o)); cbn;
        [|reflexivity].
      f_equal. apply rebuild_with_children. exact Hlen. }
    exists o, vs, (length (h ++ e1)). auto.
Qed.

Lemma lookup_app_beyond (h ext : heap) l o :
  (h ++ ext) !! l = Some o -> length h <= l -> o ∈ ext.
Proof.
  intros Hl Hge. rewrite lookup_app_r in Hl by exact Hge.
  eapply list_elem_of_lookup_2. exact Hl.
Qed.

(** The objects added to a store form a set of locations that no
    reference leaves, when each of them refers to added objects only. *)
Lemma from_region (h ext : heap) :
  Forall (obj_in (from (length h))) ext ->
  forall l o, from (length h) l -> (h ++ ext) !! l = Some o ->
              obj_in (from (length h)) o.
Proof.
  intros Hext l o Hl Hlk. rewrite Forall_forall in Hext. apply Hext.
  eapply lookup_app_beyond; eassumption.
Qed.

Lemma read_same_obj n (h1 h2 : heap) l1 l2 o :
  h1 !! l1 = Some o -> h2 !! l2 = Some o ->
  Forall (fun c => forall m, read m h1 c = read m h2 c) (children o) ->
  read n h1 (HRef l1) = read n h2 (HRef l2).
Proof.
  intros H1 H2 Hch. destruct n as [|n]; [reflexivity|]. cbn [read].
  rewrite H1, H2. f_equal. apply read_all_ext.
  eapply Forall_impl; [exact Hch|]. intros c Hc. apply Hc.
Qed.

Lemma write_lookup_ne (h : heap) l l' o : l <> l' -> write h l o !! l' = h !! l'.
Proof. intros Hne. unfold write. apply list_lookup_insert_ne. exact Hne. Qed.

(** Loaded construction. *)
Lemma init_loaded fuel (h : heap) r items x :
  closed h ->
  h !! r = Some (ODict items) ->
  read fuel h (HRef r) = Some x ->
  exists h' d,
    init fuel h (Some r) true = Some (h', d) /\
    _raw d = Some r /\
    _in_db d = true /\
    r < length h <= self_loc d /\
    (forall n, read n h' (HRef (self_loc d)) = read n h (HRef r)) /\
    (forall n, read n h' (HRef r) = read n h (HRef r)) /\
    (forall l, reach h' (HRef (self_loc d)) l -> reach h' (HRef r) l -> False) /\
    (forall l o n,
       reach h' (HRef (self_loc d)) l ->
       read n (write h' l o) (HRef r) = read n h' (HRef r)).
Proof.
  intros Hc Hr Hrd.
  assert (Hlt : r < length h) by (eapply lookup_lt_Some; exact Hr).
  destruct (deepcopy_spec fuel h (HRef r) x Hc Hlt Hrd)
    as (ext & v' & Hcp & Hfe & Hce & _ & Hfv & Hrc & o & vs & l' & Ho & -> & Hl' & Hlen).
  rewrite Hr in Ho. injection Ho as <-. cbn in Hfv. unfold from in Hfv.
  set (oc := with_children (ODict items) vs) in *.
  set (h1 := h ++ ext) in *.
  exists (h1 ++ [oc]), {| self_loc := length h1; _raw := Some r; _in_db := true |}.
  assert (Hlk : (h1 ++ [oc]) !! length h1 = Some oc).
  { rewrite lookup_app_r by lia. rewrite Nat.sub_diag. reflexivity. }
  assert (Hext : Forall (obj_in (from (length h))) (ext ++ [oc])).
  { apply Forall_app. split; [exact Hfe|]. apply Forall_singleton.
    rewrite Forall_forall in Hfe. apply Hfe.
    eapply lookup_app_beyond; [exact Hl'|exact Hfv]. }
  assert (Heq : h1 ++ [oc] = h ++ (ext ++ [oc])).
  { subst h1. rewrite app_assoc. reflexivity. }
  assert (Hold : forall l o, below (length h) l -> (h1 ++ [oc]) !! l = Some o ->
                             obj_in (below (length h)) o).
  { rewrite Heq. apply below_region. exact Hc. }
  assert (Hnew : forall l o, from (length h) l -> (h1 ++ [oc]) !! l = Some o ->
                             obj_in (from (length h)) o).
  { rewrite Heq. apply from_region. exact Hext. }
  assert (Hself : from (length h) (length h1)).
  { unfold from. subst h1. rewrite length_app. lia. }
  split.
  { unfold init. rewrite Hcp. unfold dict_init. fold h1. rewrite Hl'.
    subst oc. cbn. reflexivity. }
  cbn [self_loc _raw _in_db].
  split; [reflexivity|]. split; [reflexivity|].
  split; [split; [exact Hlt | exact Hself]|].
  split.
  { intros n. rewrite <- Hrc.
    apply (read_same_obj n _ _ _ _ oc Hlk Hl').
    pose proof (closed_lookup h1 l' oc Hce Hl') as Hb.
    eapply Forall_impl; [exact Hb|]. intros c Hcb m.
    apply read_app; assumption. }
  split.
  { intros n. rewrite Heq. apply read_app; [exact Hc | exact Hlt]. }
  split.
  { intros l Hlive Hsnap.
    pose proof (reach_in (from (length h)) _ (HRef (length h1)) l Hnew Hself Hlive)
      as H1.
    pose proof (reach_in (below (length h)) _ (HRef r) l Hold Hlt Hsnap) as H2.
    unfold from, below in *. lia. }
  intros l o n Hlive.
  pose proof (reach_in (from (length h)) _ (HRef (length h1)) l Hnew Hself Hlive)
      as H1.
  apply (read_agree (below (length h))); [|exact Hold|exact Hlt].
  intros l0 Hl0. apply write_lookup_ne. unfold from, below in *. lia.
Qed.

(** The snapshot taken by the first [save]. *)
Lemma save_snapshot_fresh fuel (h : heap) d items x :
  closed h ->
  _raw d = None ->
  h !! self_loc d = Some (ODict items) ->
  read fuel h (HRef (self_loc d)) = Some x ->
  exists h' c,
    save_snapshot fuel h d =
      Some (h', {| self_loc := self_loc d; _raw := Some c; _in_db := _in_db d |}) /\
    self_loc d < length h < c /\
    (forall n, read n h' (HRef c) = read n h (HRef (self_loc d))) /\
    (forall n, read n h' (HRef (self_loc d)) = read n h (HRef (self_loc d))) /\
    (forall l, reach h' (HRef (self_loc d)) l -> reach h' (HRef c) l -> False) /\
    (forall l o n,
       reach h' (HRef (self_loc d)) l ->
       read n (write h' l o) (HRef c) = read n h' (HRef c)).
Proof.
  intros Hc Hraw Hs Hrd.
  assert (Hlt : self_loc d < length h) by (eapply lookup_lt_Some; exact Hs).
  set (t := ODict items) in *.
  set (h1 := h ++ [t]).
  assert (Hc1 : closed h1).
  { apply closed_app; [exact Hc|]. apply Forall_singleton.
    eapply obj_in_mono; [|exact (closed_lookup h _ t Hc Hs)].
    unfold below. intros l Hl. rewrite length_app. lia. }
  assert (Ht : h1 !! length h = Some t).
  { subst h1. rewrite lookup_app_r by lia. rewrite Nat.sub_diag. reflexivity. }
  assert (Hs1 : h1 !! self_loc d = Some t).
  { subst h1. rewrite lookup_app_l by exact Hlt. exact Hs. }
  assert (Htemp : forall n, read n h1 (HRef (length h)) = read n h (HRef (self_loc d))).
  { intros n. apply (read_same_obj n _ _ _ _ t Ht Hs).
    eapply Forall_impl; [exact (closed_lookup h _ t Hc Hs)|].
    intros c Hcb m. apply read_app; assumption. }
  assert (Hb1 : val_in (below (length h1)) (HRef (length h))).
  { cbn. unfold below. subst h1. rewrite length_app. cbn. lia. }
  assert (Hrd1 : read fuel h1 (HRef (length h)) = Some x).
  { rewrite Htemp. exact Hrd. }
  destruct (deepcopy_spec fuel h1 (HRef (length h)) x Hc1 Hb1 Hrd1)
    as (ext & v' & Hcp & Hfe & Hce & _ & Hfv & Hrc & _ & _ & c & _ & -> & _ & _).
  cbn in Hfv. unfold from in Hfv.
  assert (Hlen1 : length h1 = S (length h)).
  { subst h1. rewrite length_app. cbn. lia. }
  exists (h1 ++ ext), c.
  assert (Heq : h1 ++ ext = h ++ ([t] ++ ext)).
  { subst h1. rewrite <- app_assoc. reflexivity. }
  assert (Hold : forall l o, below (length h) l -> (h1 ++ ext) !! l = Some o ->
                             obj_in (below (length h)) o).
  { rewrite Heq. apply below_region. exact Hc. }
  assert (Hnew : forall l o, from (length h1) l -> (h1 ++ ext) !! l = Some o ->
                             obj_in (from (length h1)) o).
  { apply from_region. exact Hfe. }
  split.
  { unfold save_snapshot, dict_init, alloc. rewrite Hraw, Hs. unfold t.
    cbv beta iota. change (h ++ [ODict items]) with h1. rewrite Hcp.
    reflexivity. }
  split; [lia|].
  split.
  { intros n. rewrite Hrc. apply Htemp. }
  split.
  { intros n. rewrite Heq. apply read_app; [exact Hc | exact Hlt]. }
  split.
  { intros l Hlive Hsnap.
    pose proof (reach_in (below (length h)) _ (HRef (self_loc d)) l Hold Hlt Hlive)
      as H1.
    pose proof (reach_in (from (length h1)) _ (HRef c) l Hnew Hfv Hsnap) as H2.
    unfold from, below in *. lia. }
  intros l o n Hlive.
  pose proof (reach_in (below (length h)) _ (HRef (self_loc d)) l Hold Hlt Hlive)
    as H1.
  apply (read_agree (from (length h1))); [|exact Hnew|exact Hfv].
  intros l0 Hl0. apply write_lookup_ne. unfold from, below in *. lia.
Qed.

Lemma closed_record_heap : closed record_heap.
Proof. unfold closed, obj_in, below. repeat constructor. Qed.

Lemma closed_detached_heap : closed detached_heap.
Proof. unfold closed, obj_in, below. repeat constructor. Qed.

(** C6, as stated, fails at loaded construction: the snapshot is not a
    copy of the record received but that record itself ([_raw] is the
    location passed in), so a later in-place change of the record by
    whoever else holds it changes the baseline.  Here the list under
    [tags] of the received record is changed from ['x'] to ['y']. *)
Lemma loaded_snapshot_is_record_cex :
  init 3 record_heap (Some 1) true =
    Some (loaded_heap, {| self_loc := 4; _raw := Some 1; _in_db := true |}) /\
  read 3 loaded_heap (HRef 1) =
    Some (VDict [("_id", VOid 7); ("tags", VList [VStr "x"])]) /\
  read 3 (write loaded_heap 0 (OList [HStr "y"])) (HRef 1) =
    Some (VDict [("_id", VOid 7); ("tags", VList [VStr "y"])]).
Proof. repeat split. Qed.

(** C6 (amended).  For every Document, the snapshot shares no object with
    the live field content.  At loaded construction the live content is a
    deep, independent copy of the record received and the snapshot is the
    record received itself; at first save the snapshot is a deep,
    independent copy of the content.  In both cases a later in-place
    change of any object of the live content leaves the comparison
    baseline as it was. *)
Theorem snapshot_isolated (fuel : nat) (h : heap) :
  closed h ->
  (forall r items x,
     h !! r = Some (ODict items) ->
     read fuel h (HRef r) = Some x ->
     exists h' d,
       init fuel h (Some r) true = Some (h', d) /\
       _raw d = Some r /\
       _in_db d = true /\
       r < length h <= self_loc d /\
       (forall n, read n h' (HRef (self_loc d)) = read n h (HRef r)) /\
       (forall n, read n h' (HRef r) = read n h (HRef r)) /\
       (forall l, reach h' (HRef (self_loc d)) l -> reach h' (HRef r) l -> False) /\
       (forall l o n,
          reach h' (HRef (self_loc d)) l ->
          read n (write h' l o) (HRef r) = read n h' (HRef r))) /\
  (forall d items x,
     _raw d = None ->
     h !! self_loc d = Some (ODict items) ->
     read fuel h (HRef (self_loc d)) = Some x ->
     exists h' c,
       save_snapshot fuel h d =
         Some (h', {| self_loc := self_loc d; _raw := Some c;
                      _in_db := _in_db d |}) /\
       self_loc d < length h < c /\
       (forall n, read n h' (HRef c) = read n h (HRef (self_loc d))) /\
       (forall n, read n h' (HRef (self_loc d)) = read n h (HRef (self_loc d))) /\
       (forall l, reach h' (HRef (self_loc d)) l -> reach h' (HRef c) l -> False) /\
       (forall l o n,
          reach h' (HRef (self_loc d)) l ->
          read n (write h' l o) (HRef c) = read n h' (HRef c))).
Proof.
  intros Hc. split.
  - intros r items x Hr Hrd. eapply init_loaded; eassumption.
  - intros d items x Hraw Hs Hrd. eapply save_snapshot_fresh; eassumption.
Qed.

Lemma snapshot_isolated_witness :
  (exists h' d,
     init 3 record_heap (Some 1) true = Some (h', d) /\
     _raw d = Some 1 /\
     _in_db d = true /\
     1 < length record_heap <= self_loc d /\
     (forall n, read n h' (HRef (self_loc d)) = read n record_heap (HRef 1)) /\
     (forall n, read n h' (HRef 1) = read n record_heap (HRef 1)) /\
     (forall l, reach h' (HRef (self_loc d)) l -> reach h' (HRef 1) l -> False) /\
     (forall l o n,
        reach h' (HRef (self_loc d)) l ->
        read n (write h' l o) (HRef 1) = read n h' (HRef 1))) /\
  (exists h' c,
     save_snapshot 3 detached_heap detached_doc =
       Some (h', {| self_loc := 2; _raw := Some c; _in_db := false |}) /\
     2 < length detached_heap < c /\
     (forall n, read n h' (HRef c) = read n detached_heap (HRef 2)) /\
     (forall n, read n h' (HRef 2) = read n detached_heap (HRef 2)) /\
     (forall l, reach h' (HRef 2) l -> reach h' (HRef c) l -> False) /\
     (forall l o n,
        reach h' (HRef 2) l ->
        read n (write h' l o) (HRef c) = read n h' (HRef c))).
Proof.
  split.
  - apply (proj1 (snapshot_isolated 3 record_heap closed_record_heap) 1
             [("_id", HOid 7); ("tags", HRef 0)]
             (VDict [("_id", VOid 7); ("tags", VList [VStr "x"])])).
    + reflexivity.
    + reflexivity.
  - apply (proj2 (snapshot_isolated 3 detached_heap closed_detached_heap)
             detached_doc
             [("_id", HOid 7); ("tags", HRef 0)]
             (VDict [("_id", VOid 7); ("tags", VList [VStr "x"])])).
    + reflexivity.
    + reflexivity.
    + reflexivity.
Defined.

Example detached_construction :
  init 3 record_heap (Some 1) false = Some (detached_heap, detached_doc).
Proof. reflexivity. Qed.


(** X19.  Detached construction does not copy what the caller's mapping holds:
    the instance is a new dictionary with the same items, so an in-place
    change of any object other than the two dictionaries themselves (a
    nested list, a nested dictionary) reads the same through the
    instance and through the caller's mapping, while a change of the
    caller's dictionary itself leaves the items of the instance as they
    were. *)
Theorem detached_shares_nested (fuel : nat) (h : heap) (r : loc)
    (items : list (string * hval)) :
  h !! r = Some (ODict items) ->
  exists d,
    init fuel h (Some r) false = Some (h ++ [ODict items], d) /\
    _raw d = None /\
    _in_db d = false /\
    self_loc d = length h /\
    r < self_loc d /\
    (forall l o n,
       l <> r -> l <> self_loc d ->
       read n (write (h ++ [ODict items]) l o) (HRef (self_loc d)) =
       read n (write (h ++ [ODict items]) l o) (HRef r)) /\
    (forall o,
       write (h ++ [ODict items]) r o !! self_loc d = Some (ODict items)).
Proof.
  intros Hr.
  assert (Hlt : r < length h) by (eapply lookup_lt_Some; exact Hr).
  exists {| self_loc := length h; _raw := None; _in_db := false |}.
  cbn [self_loc _raw _in_db].
  assert (Hself : (h ++ [ODict items]) !! length h = Some (ODict items)).
  { rewrite lookup_app_r by lia. rewrite Nat.sub_diag. reflexivity. }
  split.
  { unfold init, dict_init, alloc. rewrite Hr. reflexivity. }
  split; [reflexivity|]. split; [reflexivity|]. split; [reflexivity|].
  split; [exact Hlt|]. split.
  - intros l o n Hlr Hls.
    apply (read_same_obj n _ _ _ _ (ODict items)).
    + rewrite write_lookup_ne by congruence. exact Hself.
    + rewrite write_lookup_ne by congruence.
      rewrite lookup_app_l by exact Hlt. exact Hr.
    + apply Forall_forall. intros c _ m. reflexivity.
  - intros o. rewrite write_lookup_ne by lia. exact Hself.
Qed.

(** The list under [tags] of the caller's record is changed from ['x']
    to ['y']: the detached document shows the change. *)
Lemma detached_shares_nested_witness :
  (exists d,
     init 3 record_heap (Some 1) false =
       Some (record_heap ++ [ODict [("_id", HOid 7); ("tags", HRef 0)]], d) /\
     _raw d = None /\
     _in_db d = false /\
     self_loc d = length record_heap /\
     1 < self_loc d /\
     (forall l o n,
        l <> 1 -> l <> self_loc d ->
        read n (write (record_heap ++ [ODict [("_id", HOid 7); ("tags", HRef 0)]])
                  l o) (HRef (self_loc d)) =
        read n (write (record_heap ++ [ODict [("_id", HOid 7); ("tags", HRef 0)]])
                  l o) (HRef 1)) /\
     (forall o,
        write (record_heap ++ [ODict [("_id", HOid 7); ("tags", HRef 0)]]) 1 o
          !! self_loc d = Some (ODict [("_id", HOid 7); ("tags", HRef 0)]))) /\
  read 3 (write detached_heap 0 (OList [HStr "y"])) (HRef 2) =
    Some (VDict [("_id", VOid 7); ("tags", VList [VStr "y"])]).
Proof.
  split.
  - apply (detached_shares_nested 3 record_heap 1
             [("_id", HOid 7); ("tags", HRef 0)]).
    reflexivity.
  - reflexivity.
Defined.

End AliasingFacts.

(** * Further properties of the methods *)

(** ** [changes] *)

Lemma changes_step_nonempty self raw c i c' :
  nonempty_instructions c ->
  changes_step self raw c i = Ok c' ->
  nonempty_instructions c'.
Proof.
  intros (Hs & Hi & Hu) Hstep. unfold changes_step, getitem in Hstep.
  destruct (self !! i) as [a|]; [|discriminate Hstep]. cbn in Hstep.
  assert (Hset : nonempty_instructions (set_entry i a c)).
  { repeat split; cbn; auto. intros m [= <-]. apply insert_non_empty. }
  destruct (as_int a) as [x|]; [|injection Hstep as <-; exact Hset].
  destruct (raw !! i) as [b|]; [|discriminate Hstep]. cbn in Hstep.
  destruct (as_int b) as [y|]; injection Hstep as <-; [|exact Hset].
  repeat split; cbn; auto. intros m [= <-]. apply insert_non_empty.
Qed.

Lemma changes_loop_nonempty self raw keys :
  forall c c',
    nonempty_instructions c ->
    changes_loop self raw c keys = Ok c' ->
    nonempty_instructions c'.
Proof.
  induction keys as [|i rest IH]; intros c c' Hc Hrun; cbn in Hrun.
  - injection Hrun as <-. exact Hc.
  - destruct (changes_step self raw c i) as [c1|e] eqn:Hstep;
      [|discriminate Hrun].
    cbn in Hrun. eapply IH; [|exact Hrun].
    eapply changes_step_nonempty; eassumption.
Qed.

Lemma dict_truthy_nonempty (m : dict) : dict_truthy m = true -> m <> ∅.
Proof.
  unfold dict_truthy. intros H. apply negb_true_iff in H.
  apply bool_decide_eq_false_1 in H. exact H.
Qed.

Lemma set_truthy_nonempty (u : gset string) : set_truthy u = true -> u <> ∅.
Proof.
  unfold set_truthy. intros H. apply negb_true_iff in H.
  apply bool_decide_eq_false_1 in H. exact H.
Qed.

Lemma changes_nonempty (d : Document) (c : ChangeSet) :
  changes d = Ok (Some c) -> nonempty_instructions c.
Proof.
  unfold changes. destruct (_raw d) as [raw|]; [|discriminate].
  destruct (dict_truthy raw); cbn [negb]; [|discriminate].
  set (diff := diff_dicts (fields d) raw).
  destruct (changes_loop _ _ _ _) as [c1|e] eqn:Hloop; [|discriminate].
  cbn [obind].
  assert (H1 : nonempty_instructions c1).
  { eapply changes_loop_nonempty; [|exact Hloop].
    destruct (dict_truthy (diff_added diff)) eqn:Ht.
    - repeat split; cbn; try discriminate. intros m [= <-].
      apply dict_truthy_nonempty. exact Ht.
    - repeat split; cbn; discriminate. }
  destruct H1 as (Hs & Hi & Hu).
  destruct (set_truthy (diff_removed diff)) eqn:Ht; intros [= <-];
    unfold nonempty_instructions; cbn;
    (split; [exact Hs|]); (split; [exact Hi|]); [|exact Hu].
  intros u Heq. injection Heq as Heq. subst u.
  apply set_truthy_nonempty. exact Ht.
Qed.

(** X3.  An instruction set computed by [changes] never binds [$set],
    [$inc] or [$unset] to an empty mapping or set: a key is present only
    when it has at least one field to carry. *)
Theorem changes_instructions_nonempty (d : Document) (c : ChangeSet) :
  changes d = Ok (Some c) -> nonempty_instructions c.
Proof. apply changes_nonempty. Qed.

Lemma changes_instructions_nonempty_witness :
  nonempty_instructions
    {| cs_set := Some {["flag" := VBool true]};
       cs_inc := Some {["count" := VInt 2]};
       cs_unset := Some {["tag"]} |}.
Proof.
  apply (changes_instructions_nonempty scenario_doc).
  vm_compute. reflexivity.
Defined.

(** X1.  [changes] never raises: the lookups [self[i]] and
    [self._raw[i]] of its loop are made only for keys that both mappings
    hold. *)
Theorem changes_never_raises (d : Document) :
  exists r, changes d = Ok r.
Proof.
  destruct (_raw d) as [raw|] eqn:Hraw.
  - destruct (decide (raw = ∅)) as [->|Hne].
    + exists None. apply changes_no_snapshot. right. exact Hraw.
    + destruct (changes_spec d raw Hraw Hne) as (c & Hc & _). eauto.
  - exists None. apply changes_no_snapshot. left. exact Hraw.
Qed.

(** On a document with a non-empty snapshot, [changes] places every
    key in exactly one way: an added key under [$set] with its value; a
    removed key under [$unset]; a key whose values differ under [$inc]
    with the difference when both are integers and under [$set]
    otherwise; a key whose values are equal, or that neither mapping has,
    under no instruction. *)
Lemma changes_at (d : Document) (raw : dict) (c : ChangeSet) (k : string) :
  _raw d = Some raw ->
  raw <> ∅ ->
  changes d = Ok (Some c) ->
  match fields d !! k, raw !! k with
  | Some a, None =>
      set_of c !! k = Some a /\ inc_of c !! k = None /\ k ∉ unset_of c
  | None, Some _ =>
      set_of c !! k = None /\ inc_of c !! k = None /\ k ∈ unset_of c
  | None, None =>
      set_of c !! k = None /\ inc_of c !! k = None /\ k ∉ unset_of c
  | Some a, Some b =>
      (k ∉ unset_of c) /\
      (if py_eq a b then set_of c !! k = None /\ inc_of c !! k = None
       else match inc_value a b with
            | Some delta => inc_of c !! k = Some delta /\ set_of c !! k = None
            | None => set_of c !! k = Some a /\ inc_of c !! k = None
            end)
  end.
Proof.
  intros Hraw Hne Hc.
  destruct (changes_spec d raw Hraw Hne) as (c0 & Hc0 & Hun & Hsame & Hchg).
  rewrite Hc in Hc0. injection Hc0 as <-.
  assert (Hunset : k ∈ unset_of c <-> is_Some (raw !! k) /\ fields d !! k = None).
  { rewrite Hun. apply diff_removed_elem. }
  assert (Hnochg : (forall a b, fields d !! k = Some a -> raw !! k = Some b ->
                                py_eq a b = true) ->
                   diff_changed (diff_dicts (fields d) raw) !! k = None).
  { intros H. destruct (diff_changed _ !! k) as [v|] eqn:Hv; [|reflexivity].
    apply diff_changed_lookup in Hv as [Ha (b & Hb & Hf)].
    rewrite (H v b Ha Hb) in Hf. discriminate Hf. }
  destruct (fields d !! k) as [a|] eqn:Ha, (raw !! k) as [b|] eqn:Hb.
  - split; [rewrite Hunset; intros [_ ?]; discriminate|].
    destruct (py_eq a b) eqn:He.
    + destruct (Hsame k) as [Hs Hi].
      { apply Hnochg. intros a' b' [= <-] [= <-]. exact He. }
      split; [|exact Hi]. rewrite Hs.
      destruct (diff_added _ !! k) eqn:Hadd; [|reflexivity].
      apply diff_added_lookup in Hadd as [_ ?]. congruence.
    + specialize (Hchg k a b Ha Hb He). destruct (inc_value a b); tauto.
  - destruct (Hsame k) as [Hs Hi].
    { apply Hnochg. intros a' b' _ [=]. }
    split; [|split; [exact Hi|]].
    + rewrite Hs. apply diff_added_lookup. auto.
    + rewrite Hunset. intros [[? ?] _]. discriminate.
  - destruct (Hsame k) as [Hs Hi].
    { apply Hnochg. intros a' b' [=]. }
    split; [|split; [exact Hi|]].
    + rewrite Hs. destruct (diff_added _ !! k) eqn:Hadd; [|reflexivity].
      apply diff_added_lookup in Hadd as [? _]. congruence.
    + rewrite Hunset. eauto.
  - destruct (Hsame k) as [Hs Hi].
    { apply Hnochg. intros a' b' [=]. }
    split; [|split; [exact Hi|]].
    + rewrite Hs. destruct (diff_added _ !! k) eqn:Hadd; [|reflexivity].
      apply diff_added_lookup in Hadd as [? _]. congruence.
    + rewrite Hunset. intros [[? ?] _]. discriminate.
Qed.

(** X2.  On a document with a non-empty snapshot, [changes] places every
    key in exactly one way: an added key under [$set] with its value; a
    removed key under [$unset]; a key whose values differ under [$inc]
    with the difference when both are instances of [int] (an [int] or a
    [bool], not a [long]) and under [$set] with its value otherwise; a
    key whose values are equal, or that neither mapping has, under no
    instruction.  So the three instructions never share a key. *)
Theorem changes_per_key (d : Document) (raw : dict) (c : ChangeSet) (k : string) :
  _raw d = Some raw ->
  raw <> ∅ ->
  changes d = Ok (Some c) ->
  match fields d !! k, raw !! k with
  | Some a, None =>
      set_of c !! k = Some a /\ inc_of c !! k = None /\ k ∉ unset_of c
  | None, Some _ =>
      set_of c !! k = None /\ inc_of c !! k = None /\ k ∈ unset_of c
  | None, None =>
      set_of c !! k = None /\ inc_of c !! k = None /\ k ∉ unset_of c
  | Some a, Some b =>
      (k ∉ unset_of c) /\
      (if py_eq a b then set_of c !! k = None /\ inc_of c !! k = None
       else
         (forall x y, is_int a x -> is_int b y ->
            inc_of c !! k =
              Some (if bool_decide (- maxint - 1 <= x - y <= maxint)
                    then VInt (x - y) else VLong (x - y)) /\
            set_of c !! k = None) /\
         ((forall x, ~ is_int a x) \/ (forall y, ~ is_int b y) ->
          set_of c !! k = Some a /\ inc_of c !! k = None))
  end.
Proof.
  intros Hraw Hne Hc. pose proof (changes_at d raw c k Hraw Hne Hc) as H.
  destruct (fields d !! k) as [a|], (raw !! k) as [b|]; try exact H.
  destruct H as [Hun H]. split; [exact Hun|].
  destruct (py_eq a b); [exact H|].
  unfold inc_value in H. split.
  - intros x y Hx Hy.
    apply is_int_as_int in Hx. apply is_int_as_int in Hy.
    rewrite Hx, Hy, int_sub_eq in H. exact H.
  - intros [Ha|Hb].
    + apply not_is_int_as_int in Ha. rewrite Ha in H. exact H.
    + apply not_is_int_as_int in Hb. rewrite Hb in H.
      destruct (as_int a); exact H.
Qed.

Lemma changes_per_key_witness :
  ("count" ∉ unset_of scenario_changeset) /\
  inc_of scenario_changeset !! "count" = Some (VInt 2) /\
  set_of scenario_changeset !! "count" = None.
Proof.
  assert (Hc : changes scenario_doc = Ok (Some scenario_changeset))
    by (vm_compute; reflexivity).
  pose proof (changes_per_key scenario_doc
                (<["tag" := VStr "x"]> (<["count" := VInt 5]> ∅))
                scenario_changeset "count" eq_refl scenario_raw_nonempty Hc)
    as H.
  assert (Hf : fields scenario_doc !! "count" = Some (VInt 7))
    by (vm_compute; reflexivity).
  assert (Hr : (<["tag" := VStr "x"]> (<["count" := VInt 5]> ∅) : dict)
                 !! "count" = Some (VInt 5))
    by (vm_compute; reflexivity).
  rewrite Hf, Hr in H. destruct H as [Hun [Hinc _]].
  split; [exact Hun|].
  destruct (Hinc 7 5) as [Hi Hs].
  - constructor. unfold maxint. lia.
  - constructor. unfold maxint. lia.
  - split; [|exact Hs].
    rewrite bool_decide_eq_true_2 in Hi by (unfold maxint; lia). exact Hi.
Defined.

Lemma agree_no_changes (d : Document) (raw : dict) (c : ChangeSet) :
  _raw d = Some raw ->
  raw <> ∅ ->
  changes d = Ok (Some c) ->
  (forall k, agree_at (fields d) raw k) ->
  c = cs_empty.
Proof.
  intros Hraw Hne Hc Hag.
  destruct (changes_nonempty d c Hc) as (Hs & Hi & Hu).
  assert (Hk : forall k, set_of c !! k = None /\ inc_of c !! k = None /\
                         k ∉ unset_of c).
  { intros k. pose proof (changes_at d raw c k Hraw Hne Hc) as H.
    specialize (Hag k). unfold agree_at in Hag.
    destruct (fields d !! k) as [a|], (raw !! k) as [b|]; try contradiction.
    - rewrite Hag in H. tauto.
    - exact H. }
  destruct c as [[m|] [n|] [u|]]; cbn in *; try reflexivity; exfalso.
  all: try (destruct (map_choose m) as (k & v & Hv); [apply Hs; reflexivity|];
            destruct (Hk k) as (H1 & _ & _); unfold set_of in H1; cbn in H1;
            congruence).
  all: try (destruct (map_choose n) as (k & v & Hv); [apply Hi; reflexivity|];
            destruct (Hk k) as (_ & H1 & _); unfold inc_of in H1; cbn in H1;
            congruence).
  destruct (set_choose_L u) as (k & Hk'); [apply Hu; reflexivity|].
  destruct (Hk k) as (_ & _ & H1). apply H1. exact Hk'.
Qed.

(** X4.  On a document with a non-empty snapshot, [changes] is the empty
    instruction set exactly when the content and the snapshot have the
    same keys with values equal by [==]. *)
Theorem changes_empty_iff_agree (d : Document) (raw : dict) :
  _raw d = Some raw ->
  raw <> ∅ ->
  (changes d = Ok (Some cs_empty) <-> forall k, agree_at (fields d) raw k).
Proof.
  intros Hraw Hne. split.
  - intros Hc k. pose proof (changes_at d raw cs_empty k Hraw Hne Hc) as H.
    unfold agree_at. unfold set_of, inc_of, unset_of in H. cbn in H.
    rewrite !lookup_empty in H.
    destruct (fields d !! k) as [a|], (raw !! k) as [b|]; auto.
    + destruct H as [_ H]. destruct (py_eq a b); [reflexivity|].
      destruct (inc_value a b); destruct H; discriminate.
    + destruct H as [H _]. discriminate.
    + destruct H as (_ & _ & H). apply not_elem_of_empty in H. exact H.
  - intros Hag. destruct (changes_spec d raw Hraw Hne) as (c & Hc & _).
    rewrite Hc. f_equal. f_equal. eapply agree_no_changes; eassumption.
Qed.

Lemma stored_record_nonempty : stored_record <> ∅.
Proof.
  intros H. apply (f_equal (fun m : dict => m !! "_id")) in H.
  vm_compute in H. discriminate H.
Qed.

Lemma changes_empty_iff_agree_witness :
  changes loaded_doc = Ok (Some cs_empty) <->
  forall k, agree_at (fields loaded_doc) stored_record k.
Proof.
  apply (changes_empty_iff_agree loaded_doc stored_record).
  - reflexivity.
  - exact stored_record_nonempty.
Defined.

(** ** [update_changes] without changes *)

Lemma update_changes_nothing cls kwargs s :
  changes (self s) = Ok None \/ changes (self s) = Ok (Some cs_empty) ->
  update_changes cls kwargs s = (Ok tt, s).
Proof.
  intros H. unfold update_changes, bind, self_changes.
  destruct H as [-> | ->]; reflexivity.
Qed.

Lemma self_equal_agree (m : dict) : self_equal m -> forall k, agree_at m m k.
Proof.
  intros H k. unfold agree_at. destruct (m !! k) as [v|] eqn:Hv; [|exact I].
  eapply H. exact Hv.
Qed.

Lemma changes_same (d : Document) (m : dict) :
  fields d = m -> _raw d = Some m -> self_equal m ->
  changes d = Ok (if decide (m = ∅) then None else Some cs_empty).
Proof.
  intros Hf Hr Hse. destruct (decide (m = ∅)) as [->|Hne].
  - apply changes_no_snapshot. right. exact Hr.
  - destruct (changes_spec d m Hr Hne) as (c & Hc & _).
    rewrite Hc. f_equal. f_equal.
    eapply agree_no_changes; try eassumption.
    rewrite Hf. apply self_equal_agree. exact Hse.
Qed.

(** X5.  A document loaded from a record whose values are equal to
    themselves, and not modified since, has no changes: [changes] is the
    empty instruction set ([None] for an empty record), and
    [update_changes] returns without submitting anything or changing the
    instance. *)
Theorem loaded_unmodified_no_update (r : dict) (d : Document)
    (cls : DocClass) (kwargs : dict) (w : World) :
  Document_init (Some r) true = Ok d ->
  self_equal r ->
  changes d = Ok (if decide (r = ∅) then None else Some cs_empty) /\
  update_changes cls kwargs {| self := d; world := w |} =
    (Ok tt, {| self := d; world := w |}).
Proof.
  intros Hinit Hse. cbn in Hinit. injection Hinit as <-.
  assert (Hc : changes {| fields := deepcopy r; _raw := Some r;
                          _in_db := true; _history := None |}
               = Ok (if decide (r = ∅) then None else Some cs_empty)).
  { apply changes_same; [reflexivity|reflexivity|exact Hse]. }
  split; [exact Hc|].
  apply update_changes_nothing. cbn [self]. rewrite Hc.
  destruct (decide (r = ∅)); auto.
Qed.

Lemma stored_record_self_equal : self_equal stored_record.
Proof.
  intros k v Hv. unfold stored_record in Hv.
  apply lookup_insert_Some in Hv as [[_ <-]|[_ Hv]]; [reflexivity|].
  apply lookup_singleton_Some in Hv as [_ <-]. reflexivity.
Qed.

Lemma loaded_unmodified_no_update_witness :
  changes loaded_doc =
    Ok (if decide (stored_record = ∅) then None else Some cs_empty) /\
  update_changes Counter ∅ {| self := loaded_doc; world := stored_world |} =
    (Ok tt, {| self := loaded_doc; world := stored_world |}).
Proof.
  apply (loaded_unmodified_no_update stored_record loaded_doc Counter ∅
           stored_world).
  - reflexivity.
  - exact stored_record_self_equal.
Defined.

(** ** [save] and change tracking *)

(** What [save] does, validation included. *)
Lemma save_cases cls s :
  (exists e, validate_dict (struct cls) (fields (self s)) = Raise e /\
             __validate__ cls = true /\ save cls s = (Raise e, s)) \/
  (__validate__ cls = false \/
   validate_dict (struct cls) (fields (self s)) = Ok tt).
Proof.
  destruct (__validate__ cls) eqn:Hon; [|right; left; reflexivity].
  destruct (validate_dict (struct cls) (fields (self s))) as [[]|e] eqn:Hv.
  - right. right. reflexivity.
  - left. exists e. split; [reflexivity|]. split; [reflexivity|].
    unfold save, bind. rewrite Hon. unfold validate. rewrite Hv. reflexivity.
Qed.

(** X6.  [save] does not reset change tracking: on a document that has a
    snapshot and an identifier, whatever the outcome of [save], the
    content and the snapshot are as before, so [changes] afterwards is
    what it was before. *)
Theorem save_keeps_changes (cls : DocClass) (s : State) (r : dict) (i : value) :
  _raw (self s) = Some r ->
  fields (self s) !! "_id" = Some i ->
  fields (self (snd (save cls s))) = fields (self s) /\
  _raw (self (snd (save cls s))) = Some r /\
  changes (self (snd (save cls s))) = changes (self s).
Proof.
  intros Hr Hid.
  assert (H : fields (self (snd (save cls s))) = fields (self s) /\
              _raw (self (snd (save cls s))) = Some r).
  { destruct (save_cases cls s) as [(e & _ & _ & ->)|Hval].
    - cbn. auto.
    - rewrite (save_after_validation cls s Hval). cbv zeta.
      rewrite Hid, Hr. cbn [default].
      rewrite (insert_id _ _ _ Hid).
      destruct (reachable (col (world s))); cbn; auto. }
  destruct H as [Hf Hraw]. split; [exact Hf|]. split; [exact Hraw|].
  unfold changes. rewrite Hraw, Hr, Hf. reflexivity.
Qed.

Lemma save_keeps_changes_witness :
  fields (self (snd (save Counter stored_state))) = fields (self stored_state) /\
  _raw (self (snd (save Counter stored_state))) = Some stored_record /\
  changes (self (snd (save Counter stored_state))) = changes (self stored_state).
Proof.
  apply (save_keeps_changes Counter stored_state stored_record (VOid 7)).
  - reflexivity.
  - vm_compute. reflexivity.
Defined.

(** X7.  After the first successful [save] of a document that had no
    snapshot and whose values are equal to themselves, the snapshot is
    the saved content: [changes] is the empty instruction set and
    [update_changes] submits nothing. *)
Theorem first_save_then_no_changes (cls : DocClass) (s s' : State)
    (rv : value) (kwargs : dict) :
  _raw (self s) = None ->
  self_equal (fields (self s)) ->
  save cls s = (Ok rv, s') ->
  _raw (self s') = Some (fields (self s')) /\
  changes (self s') = Ok (Some cs_empty) /\
  update_changes cls kwargs s' = (Ok tt, s').
Proof.
  intros Hraw Hse Hrun.
  rewrite (save_after_validation cls s (save_not_rejected _ _ _ _ Hrun)) in Hrun.
  cbv zeta in Hrun. rewrite Hraw in Hrun. cbn [default] in Hrun.
  destruct (reachable (col (world s))); [|discriminate Hrun].
  injection Hrun as _ <-. cbn [self fields _raw set_in_db].
  set (i := default (VOid (oid_counter (world s))) (fields (self s) !! "_id")).
  set (f := <["_id" := i]> (fields (self s))).
  assert (Hsf : self_equal f).
  { intros k v Hv. subst f. apply lookup_insert_Some in Hv as [[_ <-]|[_ Hv]].
    - subst i. destruct (fields (self s) !! "_id") as [i0|] eqn:Hi; cbn.
      + eapply Hse. exact Hi.
      + apply N.eqb_refl.
    - eapply Hse. exact Hv. }
  assert (Hc : changes {| fields := f; _raw := Some (deepcopy f);
                          _in_db := true; _history := _history (self s) |}
               = Ok (Some cs_empty)).
  { rewrite (changes_same {| fields := f; _raw := Some (deepcopy f);
                             _in_db := true; _history := _history (self s) |}
               f eq_refl eq_refl Hsf).
    destruct (decide (f = ∅)) as [He|_]; [|reflexivity].
    exfalso. subst f. exact (insert_non_empty _ _ _ He). }
  split; [reflexivity|]. split; [exact Hc|].
  apply update_changes_nothing. right. exact Hc.
Qed.

Lemma fresh_doc_self_equal : self_equal (fields fresh_doc).
Proof.
  intros k v Hv. cbn in Hv. apply lookup_singleton_Some in Hv as [_ <-].
  reflexivity.
Qed.

Lemma first_save_then_no_changes_witness :
  _raw (self (snd (save Counter {| self := fresh_doc; world := world0 |}))) =
    Some (fields (self (snd (save Counter
                               {| self := fresh_doc; world := world0 |})))) /\
  changes (self (snd (save Counter {| self := fresh_doc; world := world0 |}))) =
    Ok (Some cs_empty) /\
  update_changes Counter ∅
    (snd (save Counter {| self := fresh_doc; world := world0 |})) =
    (Ok tt, snd (save Counter {| self := fresh_doc; world := world0 |})).
Proof.
  apply (first_save_then_no_changes Counter
           {| self := fresh_doc; world := world0 |}
           (snd (save Counter {| self := fresh_doc; world := world0 |}))
           (VOid 0) ∅).
  - reflexivity.
  - exact fresh_doc_self_equal.
  - vm_compute. reflexivity.
Defined.

(** ** [save], [pull] and the stored record *)

Lemma matches_id (doc : dict) (i : value) :
  doc !! "_id" = Some i -> py_eq i i = true ->
  matches {["_id" := i]} doc = true.
Proof.
  intros Hid Heq. unfold matches. rewrite map_to_list_singleton. cbn.
  rewrite Hid, Heq. reflexivity.
Qed.

Lemma filter_upsert (spec doc : dict) (rs : list dict) :
  matches spec doc = true ->
  exists rest, List.filter (matches spec) (upsert spec doc rs) = doc :: rest.
Proof.
  intros Hm. induction rs as [|r rs IH]; cbn.
  - rewrite Hm. eauto.
  - destruct (matches spec r) eqn:Hr; cbn.
    + rewrite Hm. eauto.
    + rewrite Hr. exact IH.
Qed.

Lemma upsert_idem (spec doc : dict) (rs : list dict) :
  matches spec doc = true ->
  upsert spec doc (upsert spec doc rs) = upsert spec doc rs.
Proof.
  intros Hm. induction rs as [|r rs IH]; cbn.
  - rewrite Hm. reflexivity.
  - destruct (matches spec r) eqn:Hr; cbn.
    + rewrite Hm. reflexivity.
    + rewrite Hr, IH. reflexivity.
Qed.

(** The state a successful [save] leaves. *)
Lemma save_ok cls s rv s' :
  save cls s = (Ok rv, s') ->
  let f := <["_id" := rv]> (fields (self s)) in
  rv = default (VOid (oid_counter (world s))) (fields (self s) !! "_id") /\
  reachable (col (world s)) = true /\
  s' = {| self := {| fields := f;
                     _raw := Some (default (deepcopy f) (_raw (self s)));
                     _in_db := true;
                     _history := _history (self s) |};
          world := {| col := {| records := upsert {["_id" := rv]} f
                                             (records (col (world s)));
                                journal :=
                                  (journal (col (world s)) ++
                                   [ReqSave f (_get_write_options cls
                                                 {["manipulate" := VBool true]})])%list;
                                reachable := true |};
                      oid_counter :=
                        match fields (self s) !! "_id" with
                        | Some _ => oid_counter (world s)
                        | None => N.succ (oid_counter (world s))
                        end |} |}.
Proof.
  intros Hrun.
  rewrite (save_after_validation cls s (save_not_rejected _ _ _ _ Hrun)) in Hrun.
  cbv zeta in Hrun.
  destruct (reachable (col (world s))); [|discriminate Hrun].
  injection Hrun as <- <-. cbv zeta. auto.
Qed.

(** X8.  Round trip through the storage: after a successful [save]
    (with an identifier equal to itself by [==]), [pull] succeeds and
    leaves the instance exactly as the [save] left it: the content read
    back is the content written. *)
Theorem save_then_pull (cls : DocClass) (s s1 : State) (rv : value) :
  save cls s = (Ok rv, s1) ->
  py_eq rv rv = true ->
  exists s2,
    pull s1 = (Ok tt, s2) /\
    self s2 = self s1 /\
    records (col (world s2)) = records (col (world s1)) /\
    journal (col (world s2)) =
      (journal (col (world s1)) ++ [ReqFind {["_id" := rv]}])%list.
Proof.
  intros Hrun Heq. destruct (save_ok cls s rv s1 Hrun) as (_ & _ & ->).
  cbv zeta.
  set (f := <["_id" := rv]> (fields (self s))).
  assert (Hid : f !! "_id" = Some rv) by apply lookup_insert_eq.
  match goal with
  | |- context [pull ?st] => rewrite (pull_run st rv Hid)
  end.
  cbv zeta. cbn [world col reachable records self].
  destruct (filter_upsert {["_id" := rv]} f (records (col (world s)))
              (matches_id f rv Hid Heq)) as (rest & ->).
  eexists. split; [reflexivity|]. cbn.
  rewrite (right_id_L ∅ (∪)). auto.
Qed.

Lemma save_then_pull_witness :
  exists s2,
    pull (snd (save Counter {| self := fresh_doc; world := world0 |})) =
      (Ok tt, s2) /\
    self s2 = self (snd (save Counter {| self := fresh_doc; world := world0 |})) /\
    records (col (world s2)) =
      records (col (world (snd (save Counter
                                  {| self := fresh_doc; world := world0 |})))) /\
    journal (col (world s2)) =
      (journal (col (world (snd (save Counter
                                   {| self := fresh_doc; world := world0 |})))) ++
       [ReqFind {["_id" := VOid 0]}])%list.
Proof.
  apply (save_then_pull Counter {| self := fresh_doc; world := world0 |}).
  - vm_compute. reflexivity.
  - reflexivity.
Defined.

(** X9.  Saving again without a modification writes the full content
    again and changes nothing else: when the content still passes
    validation, the second [save] succeeds with the same identifier, the
    instance and the stored records are as the first [save] left them, no
    identifier is drawn, and one more write is submitted. *)
Theorem save_twice (cls : DocClass) (s s1 : State) (rv : value) :
  save cls s = (Ok rv, s1) ->
  (__validate__ cls = false \/
   validate_dict (struct cls) (fields (self s1)) = Ok tt) ->
  py_eq rv rv = true ->
  exists s2,
    save cls s1 = (Ok rv, s2) /\
    self s2 = self s1 /\
    records (col (world s2)) = records (col (world s1)) /\
    oid_counter (world s2) = oid_counter (world s1) /\
    journal (col (world s2)) =
      (journal (col (world s1)) ++
       [ReqSave (fields (self s1))
          (_get_write_options cls {["manipulate" := VBool true]})])%list.
Proof.
  intros Hrun Hval Heq. destruct (save_ok cls s rv s1 Hrun) as (_ & _ & ->).
  cbv zeta in *.
  set (f := <["_id" := rv]> (fields (self s))) in *.
  assert (Hid : f !! "_id" = Some rv) by apply lookup_insert_eq.
  match goal with
  | |- context [save cls ?st] => rewrite (save_after_validation cls st Hval)
  end.
  cbv zeta.
  cbn [self world fields _raw _in_db _history col records journal reachable
       oid_counter].
  rewrite Hid. cbn [default]. rewrite (insert_id f "_id" rv Hid).
  eexists. split; [reflexivity|]. cbn.
  rewrite (upsert_idem _ _ _ (matches_id f rv Hid Heq)).
  repeat split.
Qed.

Lemma save_twice_witness :
  exists s2,
    save Counter (snd (save Counter {| self := fresh_doc; world := world0 |})) =
      (Ok (VOid 0), s2) /\
    self s2 = self (snd (save Counter {| self := fresh_doc; world := world0 |})) /\
    records (col (world s2)) =
      records (col (world (snd (save Counter
                                  {| self := fresh_doc; world := world0 |})))) /\
    oid_counter (world s2) =
      oid_counter (world (snd (save Counter
                                 {| self := fresh_doc; world := world0 |}))) /\
    journal (col (world s2)) =
      (journal (col (world (snd (save Counter
                                   {| self := fresh_doc; world := world0 |})))) ++
       [ReqSave (fields (self (snd (save Counter
                                      {| self := fresh_doc; world := world0 |}))))
          (_get_write_options Counter {["manipulate" := VBool true]})])%list.
Proof.
  apply (save_twice Counter {| self := fresh_doc; world := world0 |}).
  - vm_compute. reflexivity.
  - right. vm_compute. reflexivity.
  - reflexivity.
Defined.

(** ** [new] followed by [save] *)

(** X10.  An instance made by [new] keeps its identifier through
    [save]: the [save] returns the identifier the instance already
    carries, draws no further [ObjectId], leaves the content as [new]
    built it, takes it as the snapshot and marks the instance as stored. *)
Theorem new_then_save (cls : DocClass) (kwargs : dict) (w w1 : World)
    (d : Document) (s' : State) (rv : value) :
  new cls kwargs w = (Ok d, w1) ->
  save cls {| self := d; world := w1 |} = (Ok rv, s') ->
  fields d !! "_id" = Some rv /\
  fields (self s') = fields d /\
  _raw (self s') = Some (fields d) /\
  _in_db (self s') = true /\
  oid_counter (world s') = oid_counter w1.
Proof.
  intros Hnew Hsave.
  assert (Hd : _raw d = None /\ exists i, fields d !! "_id" = Some i).
  { unfold new, bind, build_instance in Hnew.
    destruct (kwargs !! "_id") as [i|] eqn:Hi; cbn in Hnew;
      injection Hnew as <- _; (split; [reflexivity|]); cbn.
    - eauto.
    - eexists. apply lookup_insert_eq. }
  destruct Hd as (Hraw & i & Hid).
  destruct (save_ok cls _ rv s' Hsave) as (Hrv & _ & ->).
  cbn [self world fields] in Hrv. rewrite Hid in Hrv. cbn in Hrv. subst rv.
  cbn [self world fields _raw _in_db oid_counter]. rewrite Hid, Hraw.
  rewrite (insert_id _ _ _ Hid). cbn. auto.
Qed.

Lemma new_then_save_witness :
  fields new_doc !! "_id" = Some (VOid 0) /\
  fields (self (snd (save Counter {| self := new_doc; world := new_world |})))
    = fields new_doc /\
  _raw (self (snd (save Counter {| self := new_doc; world := new_world |})))
    = Some (fields new_doc) /\
  _in_db (self (snd (save Counter {| self := new_doc; world := new_world |})))
    = true /\
  oid_counter (world (snd (save Counter
                             {| self := new_doc; world := new_world |})))
    = oid_counter new_world.
Proof.
  apply (new_then_save Counter {["count" := VInt 1]} world0 new_world new_doc
           (snd (save Counter {| self := new_doc; world := new_world |}))
           (VOid 0)).
  - vm_compute. reflexivity.
  - vm_compute. reflexivity.
Defined.

(** ** After [remove] *)

(** X11.  After a successful [remove] the instance has lost its
    identifier with the rest of its content: [_history] holds the content
    from before the removal, a second [remove] fails on its assertion,
    and [pull] and [update_self] raise [KeyError] for [_id]; none of the
    three submits anything. *)
Theorem after_remove (cls : DocClass) (s s1 : State) :
  remove cls s = (Ok tt, s1) ->
  _history (self s1) = Some (fields (self s)) /\
  remove cls s1 =
    (Raise (AssertionError "Could not remove document which is not in database"),
     s1) /\
  pull s1 = (Raise (KeyError "_id"), s1) /\
  (forall spec kwargs,
     update_self cls spec kwargs s1 = (Raise (KeyError "_id"), s1)).
Proof.
  intros Hrem. rewrite remove_run in Hrem. cbv zeta in Hrem.
  destruct (_in_db (self s)); [|discriminate Hrem].
  destruct (fields (self s) !! "_id"); [|discriminate Hrem].
  destruct (reachable (col (world s))); [|discriminate Hrem].
  injection Hrem as <-. cbn [self _history].
  split; [reflexivity|]. split; [rewrite remove_run; reflexivity|].
  split; [reflexivity|]. intros spec kwargs. reflexivity.
Qed.

Lemma after_remove_witness :
  _history (self removed_state) = Some (fields loaded_doc) /\
  remove Counter removed_state =
    (Raise (AssertionError "Could not remove document which is not in database"),
     removed_state) /\
  pull removed_state = (Raise (KeyError "_id"), removed_state) /\
  (forall spec kwargs,
     update_self Counter spec kwargs removed_state =
     (Raise (KeyError "_id"), removed_state)).
Proof.
  apply (after_remove Counter {| self := loaded_doc; world := stored_world |}).
  vm_compute. reflexivity.
Defined.

(** ** [update_self] *)

(** X12.  [update_self] always asks for a single-record update: whatever
    keyword arguments the caller passes, a [multi] of its own included,
    the options submitted have [multi] false; every other option is the
    caller's when given and the class's write concern otherwise; the
    update is scoped by the identifier, and the instance is not changed.
    Without an identifier it raises [KeyError] and submits nothing. *)
Theorem update_self_single (cls : DocClass) (spec : ChangeSet)
    (kwargs : dict) (s : State) :
  (fields (self s) !! "_id" = None ->
   update_self cls spec kwargs s = (Raise (KeyError "_id"), s)) /\
  (forall i, fields (self s) !! "_id" = Some i ->
     exists options,
       journal (col (world (snd (update_self cls spec kwargs s)))) =
         (journal (col (world s)) ++
          [ReqUpdate {["_id" := i]} spec options])%list /\
       options !! "multi" = Some (VBool false) /\
       (forall k, k <> "multi" ->
          options !! k = match kwargs !! k with
                         | Some v => Some v
                         | None => __write_concern__ cls !! k
                         end) /\
       self (snd (update_self cls spec kwargs s)) = self s).
Proof.
  split.
  - intros Hid. unfold update_self, bind, identifier, bind, self_getitem, getitem.
    rewrite Hid. reflexivity.
  - intros i Hid.
    exists (<["multi" := VBool false]> (_get_write_options cls kwargs)).
    assert (Hrun : update_self cls spec kwargs s =
              on_world (on_col (Collection_update {["_id" := i]} spec
                (<["multi" := VBool false]> (_get_write_options cls kwargs)))) s).
    { unfold update_self, bind, identifier, bind, self_getitem, getitem.
      rewrite Hid. reflexivity. }
    rewrite Hrun. destruct s as [d [[rs jn up] n0]].
    split; [destruct up; reflexivity|].
    split; [apply lookup_insert_eq|].
    split; [|destruct up; reflexivity].
    intros k Hk. rewrite lookup_insert_ne by congruence.
    unfold _get_write_options. rewrite lookup_union.
    destruct (kwargs !! k), (__write_concern__ cls !! k); reflexivity.
Qed.

Lemma update_self_single_witness :
  update_self Counter scenario_changeset {["multi" := VBool true]}
    {| self := fresh_doc; world := world0 |} =
    (Raise (KeyError "_id"), {| self := fresh_doc; world := world0 |}) /\
  exists options,
    journal (col (world (snd (update_self Counter scenario_changeset
                                {["multi" := VBool true]} stored_state)))) =
      (journal (col (world stored_state)) ++
       [ReqUpdate {["_id" := VOid 7]} scenario_changeset options])%list /\
    options !! "multi" = Some (VBool false) /\
    (forall k, k <> "multi" ->
       options !! k = match ({["multi" := VBool true]} : dict) !! k with
                      | Some v => Some v
                      | None => __write_concern__ Counter !! k
                      end) /\
    self (snd (update_self Counter scenario_changeset
                 {["multi" := VBool true]} stored_state)) = self stored_state.
Proof.
  split.
  - apply (proj1 (update_self_single Counter scenario_changeset
                    {["multi" := VBool true]}
                    {| self := fresh_doc; world := world0 |})).
    vm_compute. reflexivity.
  - apply (proj2 (update_self_single Counter scenario_changeset
                    {["multi" := VBool true]} stored_state)).
    vm_compute. reflexivity.
Defined.

(** ** [save] without validation *)

(** X13.  With [__validate__] false, [save] never consults the struct:
    whatever the content, it does not raise a validation error and it
    submits the write of the content with its identifier. *)
Theorem save_unvalidated (cls : DocClass) (s : State) :
  __validate__ cls = false ->
  (forall offending, fst (save cls s) <> Raise (ValidationError offending)) /\
  exists i,
    journal (col (world (snd (save cls s)))) =
      (journal (col (world s)) ++
       [ReqSave (<["_id" := i]> (fields (self s)))
          (_get_write_options cls {["manipulate" := VBool true]})])%list /\
    (reachable (col (world s)) = true -> fst (save cls s) = Ok i).
Proof.
  intros Hoff. rewrite (save_after_validation cls s (or_introl Hoff)).
  cbv zeta. destruct (reachable (col (world s))); cbn.
  - split; [discriminate|]. eexists. split; [reflexivity|]. reflexivity.
  - split; [discriminate|]. eexists. split; [reflexivity|]. discriminate.
Qed.

Lemma save_unvalidated_witness :
  validate_dict (struct Unchecked) (fields invalid_doc) =
    Raise (ValidationError [("count", Mismatch)]) /\
  (forall offending,
     fst (save Unchecked {| self := invalid_doc; world := world0 |}) <>
     Raise (ValidationError offending)) /\
  exists i,
    journal (col (world (snd (save Unchecked
                                {| self := invalid_doc; world := world0 |})))) =
      (journal (col (world {| self := invalid_doc; world := world0 |})) ++
       [ReqSave (<["_id" := i]> (fields (self {| self := invalid_doc;
                                                 world := world0 |})))
          (_get_write_options Unchecked {["manipulate" := VBool true]})])%list /\
    (reachable (col (world {| self := invalid_doc; world := world0 |})) = true ->
     fst (save Unchecked {| self := invalid_doc; world := world0 |}) = Ok i).
Proof.
  split; [vm_compute; reflexivity|].
  apply (save_unvalidated Unchecked {| self := invalid_doc; world := world0 |}).
  reflexivity.
Defined.

(** ** [oid] *)

(** X14.  [oid] normalises identifiers: given that [ObjectId(str)]
    returns identifiers only, whatever [oid] returns is an [ObjectId] and
    is left as it is by a second [oid]; an argument that is neither an
    [ObjectId] nor a string is refused with [ValueError]. *)
Theorem oid_normalises (ObjectId_of_str : string -> outcome value) (id : value) :
  (forall s v, ObjectId_of_str s = Ok v -> isinstance v TObjectId = true) ->
  (forall v, oid ObjectId_of_str id = Ok v ->
             isinstance v TObjectId = true /\ oid ObjectId_of_str v = Ok v) /\
  (isinstance id TObjectId = false -> isinstance id TStr = false ->
   oid ObjectId_of_str id =
   Raise (ValueError ("get type " ++ type_repr id ++
                      ", should be str/unicode or ObjectId"))).
Proof.
  intros Hparse. split.
  - intros v Hv.
    assert (Hoid : isinstance v TObjectId = true).
    { destruct id; cbn in Hv; try discriminate Hv.
      - eapply Hparse. exact Hv.
      - injection Hv as <-. reflexivity. }
    split; [exact Hoid|]. destruct v; try discriminate Hoid. reflexivity.
  - intros Ho Hs. destruct id; try discriminate; reflexivity.
Qed.

Lemma sample_ObjectId_oid s v :
  sample_ObjectId s = Ok v -> isinstance v TObjectId = true.
Proof.
  unfold sample_ObjectId. destruct (Nat.eqb _ _); [|discriminate].
  intros [= <-]. reflexivity.
Qed.

Lemma oid_normalises_witness :
  (forall v, oid sample_ObjectId (VStr "0123456789abcdef01234567") = Ok v ->
             isinstance v TObjectId = true /\ oid sample_ObjectId v = Ok v) /\
  oid sample_ObjectId (VInt 3) =
    Raise (ValueError "get type <type 'int'>, should be str/unicode or ObjectId").
Proof.
  split.
  - apply (proj1 (oid_normalises sample_ObjectId (VStr "0123456789abcdef01234567")
                    sample_ObjectId_oid)).
  - apply (proj2 (oid_normalises sample_ObjectId (VInt 3) sample_ObjectId_oid));
      reflexivity.
Defined.

(** ** [DocumentMetaclass] *)

(** X15.  Every class the metaclass lets through, other than a class
    whose only base is [StructuredDict], binds [col] to a collection in
    its own body, and is then what [StructuredDictMetaclass] makes of it;
    a class that does not bind [col] itself is refused with [StructError]
    before [StructuredDictMetaclass] is asked, even when a base class
    binds it. *)
Theorem metaclass_requires_col {T : Type}
    (parent : string -> list pyclass -> gmap string attribute -> outcome T)
    (describe : attribute -> string)
    (name : string) (bases : list pyclass) (attrs : gmap string attribute) :
  (forall cl,
     DocumentMetaclass_new parent describe name bases attrs = Ok cl ->
     (bases = [StructuredDict_class] \/
      exists c, attrs !! "col" = Some (ACollection c)) /\
     parent name bases attrs = Ok cl) /\
  (bases <> [StructuredDict_class] ->
   attrs !! "col" = None ->
   DocumentMetaclass_new parent describe name bases attrs =
   Raise (StructError "`col` attribute should be assigned for Document subclass")).
Proof.
  assert (Hb : only_StructuredDict bases = true <-> bases = [StructuredDict_class]).
  { destruct bases as [|[|n] [|b bs]]; cbn; split; congruence. }
  unfold DocumentMetaclass_new. split.
  - intros cl Hcl. destruct (only_StructuredDict bases) eqn:Ho; cbn in Hcl.
    + split; [left; apply Hb; reflexivity | exact Hcl].
    + destruct (attrs !! "col") as [[c|v]|]; cbn in Hcl; try discriminate Hcl.
      split; [right; eauto | exact Hcl].
  - intros Hne Hcol. destruct (only_StructuredDict bases) eqn:Ho.
    + exfalso. apply Hne. apply Hb. reflexivity.
    + cbn. rewrite Hcol. reflexivity.
Qed.

Lemma metaclass_requires_col_witness :
  (forall cl,
     DocumentMetaclass_new (fun n _ _ => Ok n) (fun _ => "") "ADoc"
       [UserClass "Document"] {["col" := ACollection empty_col]} = Ok cl ->
     ([UserClass "Document"] = [StructuredDict_class] \/
      exists c, ({["col" := ACollection empty_col]} : gmap string attribute)
                  !! "col" = Some (ACollection c)) /\
     Ok "ADoc" = Ok cl) /\
  DocumentMetaclass_new (fun n _ _ => Ok n) (fun _ => "") "BDoc"
    [UserClass "ADoc"] ∅ =
  Raise (StructError "`col` attribute should be assigned for Document subclass").
Proof.
  split.
  - apply (proj1 (metaclass_requires_col (fun n _ _ => Ok n) (fun _ => "")
                    "ADoc" [UserClass "Document"]
                    {["col" := ACollection empty_col]})).
  - apply (proj2 (metaclass_requires_col (fun n _ _ => Ok n) (fun _ => "")
                    "BDoc" [UserClass "ADoc"] ∅)).
    + discriminate.
    + reflexivity.
Defined.

(** ** [one] and [one_or_raise] *)

Lemma count_run spec c :
  reachable c = true ->
  SimplemongoCursor_count spec c =
  (Ok (length (List.filter (matches spec) (records c))), c).
Proof.
  intros Hup. destruct c as [rs jn up]. cbn in Hup. subst up. reflexivity.
Qed.

Lemma first_run spec c :
  reachable c = true ->
  SimplemongoCursor_first spec c =
  (match List.filter (matches spec) (records c) with
   | [] => Ok None
   | r :: _ => Ok (Some {| fields := r; _raw := Some r; _in_db := true;
                           _history := None |})
   end,
   {| records := records c;
      journal := (journal c ++ [ReqFind spec])%list;
      reachable := true |}).
Proof.
  intros Hup. destruct c as [rs jn up]. cbn in Hup. subst up.
  unfold SimplemongoCursor_first, bind. simpl.
  destruct (List.filter (matches spec) rs); reflexivity.
Qed.

Lemma one_run explain a am c :
  reachable c = true ->
  let spec := one_query a in
  let c' := {| records := records c;
               journal := (journal c ++ [ReqFind spec])%list;
               reachable := true |} in
  one explain a am c =
  match List.filter (matches spec) (records c) with
  | [] => (Ok None, c')
  | r :: rest =>
      if negb am && negb (Nat.eqb (length rest) 0)
      then (Raise (MultipleObjectsReturned ("explain: " ++ explain spec)), c)
      else (Ok (Some {| fields := r; _raw := Some r; _in_db := true;
                        _history := None |}), c')
  end.
Proof.
  intros Hup. cbv zeta. unfold one. cbv zeta. unfold bind at 1.
  destruct am; cbn [negb].
  - unfold ret at 1. rewrite (first_run _ c Hup).
    destruct (List.filter (matches (one_query a)) (records c)); reflexivity.
  - unfold bind at 1. rewrite (count_run _ c Hup).
    destruct (List.filter (matches (one_query a)) (records c))
      as [|r [|r' rest]] eqn:Hf; cbn [length Nat.ltb Nat.leb].
    + unfold ret at 1. rewrite (first_run _ c Hup), Hf. reflexivity.
    + unfold ret at 1. rewrite (first_run _ c Hup), Hf. reflexivity.
    + reflexivity.
Qed.

(** X16.  On a collection that answers, [one] returns [None] exactly when
    no record satisfies the query; a document it returns is the first
    such record in the loaded state ([_in_db] true, content and snapshot
    both the record); and unless [allow_multiple] is set it raises
    [MultipleObjectsReturned] when two or more records satisfy the query,
    without reading any of them. *)
Theorem one_result (explain : dict -> string) (a : value) (am : bool)
    (c : Collection) :
  reachable c = true ->
  (fst (one explain a am c) = Ok None <->
   List.filter (matches (one_query a)) (records c) = []) /\
  (forall d, fst (one explain a am c) = Ok (Some d) ->
     _in_db d = true /\ _raw d = Some (fields d) /\
     exists rest,
       List.filter (matches (one_query a)) (records c) = fields d :: rest) /\
  (am = false ->
   (2 <= length (List.filter (matches (one_query a)) (records c)))%nat ->
   one explain a am c =
   (Raise (MultipleObjectsReturned ("explain: " ++ explain (one_query a))), c)).
Proof.
  intros Hup. rewrite (one_run explain a am c Hup). cbv zeta.
  destruct (List.filter (matches (one_query a)) (records c))
    as [|r [|r' rest]]; cbn.
  - split; [tauto|]. split; [discriminate|]. intros _ H. lia.
  - rewrite andb_false_r. cbn. split; [split; discriminate|].
    split; [|intros _ H; lia].
    intros d [= <-]. cbn. eauto.
  - rewrite andb_true_r. destruct am; cbn.
    + split; [split; discriminate|]. split; [|discriminate].
      intros d [= <-]. cbn. eauto.
    + split; [split; discriminate|]. split; [discriminate|]. reflexivity.
Qed.

Lemma one_result_witness :
  (fst (one (fun _ => "") (VOid 7) false (col stored_world)) = Ok None <->
   List.filter (matches (one_query (VOid 7)))
     (records (col stored_world)) = []) /\
  (forall d,
     fst (one (fun _ => "") (VOid 7) false (col stored_world)) =
       Ok (Some d) ->
     _in_db d = true /\ _raw d = Some (fields d) /\
     exists rest,
       List.filter (matches (one_query (VOid 7)))
         (records (col stored_world)) = fields d :: rest) /\
  (false = false ->
   (2 <= length (List.filter (matches (one_query (VOid 7)))
                   (records (col stored_world))))%nat ->
   one (fun _ => "") (VOid 7) false (col stored_world) =
   (Raise (MultipleObjectsReturned
             ("explain: " ++ (fun _ : dict => "") (one_query (VOid 7)))),
    col stored_world)).
Proof.
  apply (one_result (fun _ => "") (VOid 7) false (col stored_world)).
  reflexivity.
Defined.

(** X17.  [one_or_raise] returns a document or raises: on a collection
    that answers it raises [ObjectNotFound] exactly when no record
    satisfies the query, and a document it returns is in the loaded
    state. *)
Theorem one_or_raise_result (explain : dict -> string) (shown : string)
    (a : value) (am : bool) (c : Collection) :
  reachable c = true ->
  (fst (one_or_raise explain shown a am c) =
     Raise (ObjectNotFound ("Could not find: " ++ shown)) <->
   List.filter (matches (one_query a)) (records c) = []) /\
  (forall d, fst (one_or_raise explain shown a am c) = Ok d ->
     _in_db d = true /\ _raw d = Some (fields d) /\
     matches (one_query a) (fields d) = true).
Proof.
  intros Hup. unfold one_or_raise, bind.
  rewrite (one_run explain a am c Hup). cbv zeta.
  destruct (List.filter (matches (one_query a)) (records c))
    as [|r rest] eqn:Hf.
  - cbn. split; [tauto|]. discriminate.
  - assert (Hr : matches (one_query a) r = true).
    { assert (Hin : In r (List.filter (matches (one_query a)) (records c))).
      { rewrite Hf. left. reflexivity. }
      apply filter_In in Hin. tauto. }
    destruct (negb am && negb (Nat.eqb (length rest) 0)); cbn.
    + split; [split; discriminate|]. discriminate.
    + split; [split; discriminate|]. intros d [= <-]. cbn. auto.
Qed.

Lemma one_or_raise_result_witness :
  (fst (one_or_raise (fun _ => "") "7" (VOid 7) false empty_col) =
     Raise (ObjectNotFound ("Could not find: " ++ "7")) <->
   List.filter (matches (one_query (VOid 7))) (records empty_col) = []) /\
  (forall d,
     fst (one_or_raise (fun _ => "") "7" (VOid 7) false empty_col) = Ok d ->
     _in_db d = true /\ _raw d = Some (fields d) /\
     matches (one_query (VOid 7)) (fields d) = true).
Proof.
  apply (one_or_raise_result (fun _ => "") "7" (VOid 7) false empty_col).
  reflexivity.
Defined.

Lemma dict_of_items_lookup (items : list (string * value)) (k : string) :
  dict_of_items items !! k = assoc k items.
Proof.
  unfold dict_of_items. induction items as [|[k' v] rest IH]; cbn.
  - apply lookup_empty.
  - destruct (String.eqb k k') eqn:He.
    + apply String.eqb_eq in He as ->. apply lookup_insert_eq.
    + apply String.eqb_neq in He. rewrite lookup_insert_ne by congruence.
      exact IH.
Qed.

Lemma one_query_id (id : value) :
  id <> VNone -> isinstance id TDict = false ->
  one_query id = {["_id" := id]}.
Proof.
  intros Hn Hd. destruct id; try reflexivity; [contradiction|discriminate].
Qed.

(** X18.  Round trip through [save] and [one]: after a successful [save]
    whose identifier is neither [None] nor a dictionary (and is equal to
    itself by [==]), looking the identifier up with [one] returns a
    loaded document whose content is the content saved.  [one] takes a
    dictionary for the query itself, and [None] for the query of every
    record. *)
Theorem save_then_one (cls : DocClass) (s s1 : State) (rv : value)
    (explain : dict -> string) :
  save cls s = (Ok rv, s1) ->
  py_eq rv rv = true ->
  rv <> VNone ->
  isinstance rv TDict = false ->
  fst (one explain rv true (col (world s1))) =
  Ok (Some {| fields := fields (self s1); _raw := Some (fields (self s1));
              _in_db := true; _history := None |}).
Proof.
  intros Hrun Heq Hnone Hdict.
  destruct (save_ok cls s rv s1 Hrun) as (_ & _ & ->).
  cbv zeta. cbn [self world col fields].
  set (f := <["_id" := rv]> (fields (self s))).
  assert (Hid : f !! "_id" = Some rv) by apply lookup_insert_eq.
  rewrite one_run by reflexivity. cbv zeta.
  rewrite (one_query_id rv Hnone Hdict). cbn [records].
  destruct (filter_upsert {["_id" := rv]} f (records (col (world s)))
              (matches_id f rv Hid Heq)) as (rest & ->).
  reflexivity.
Qed.

Lemma save_then_one_witness :
  fst (one (fun _ => "") (VOid 0) true
         (col (world (snd (save Counter {| self := fresh_doc; world := world0 |})))))
  = Ok (Some {| fields := fields (self (snd (save Counter
                                              {| self := fresh_doc;
                                                 world := world0 |})));
                _raw := Some (fields (self (snd (save Counter
                                                  {| self := fresh_doc;
                                                     world := world0 |}))));
                _in_db := true; _history := None |}).
Proof.
  apply (save_then_one Counter {| self := fresh_doc; world := world0 |}).
  - vm_compute. reflexivity.
  - reflexivity.
  - discriminate.
  - reflexivity.
Defined.

(** A dictionary as identifier: [one] takes it for the query, so the
    document saved under [{"a": 1}] is not found by its identifier, and
    is found by the query that names the field [_id]. *)
Example one_dict_identifier :
  fst (save Unchecked {| self := dict_id_doc; world := world0 |}) =
    Ok (VDict [("a", VInt 1)]) /\
  fst (one (fun _ => "") (VDict [("a", VInt 1)]) true
         (col (world (snd (save Unchecked
                             {| self := dict_id_doc; world := world0 |}))))) =
    Ok None /\
  fst (one (fun _ => "") (VDict [("_id", VDict [("a", VInt 1)])]) true
         (col (world (snd (save Unchecked
                             {| self := dict_id_doc; world := world0 |}))))) =
    Ok (Some {| fields := fields dict_id_doc;
                _raw := Some (fields dict_id_doc);
                _in_db := true; _history := None |}).
Proof. repeat (split; [vm_compute; reflexivity|]). vm_compute. reflexivity. Qed.

(** ** The instructions applied to the snapshot *)

Lemma apply_update_lookup (c : ChangeSet) (r : dict) (k : string) :
  apply_update c r !! k =
  if decide (k ∈ unset_of c) then None
  else
    match (match set_of c !! k with Some v => Some v | None => r !! k end),
          inc_of c !! k with
    | Some o, Some b =>
        match number o, number b with
        | Some x, Some y => Some (of_number (x + y))
        | _, _ => Some o
        end
    | None, Some b => Some b
    | o, None => o
    end.
Proof.
  unfold apply_update. rewrite map_lookup_filter, lookup_merge, lookup_union.
  destruct (set_of c !! k) as [v|], (r !! k) as [w|], (inc_of c !! k) as [b|];
    cbn; repeat case_match; cbn; try reflexivity;
    repeat case_guard; cbn in *; try reflexivity; try contradiction;
    try congruence.
Qed.

Lemma as_int_number (a : value) (x : Z) : as_int a = Some x -> number a = Some x.
Proof.
  destruct a; cbn; try discriminate; [auto|].
  destruct (int_range z); [auto|discriminate].
Qed.

Lemma number_of_number (z : Z) : number (of_number z) = Some z.
Proof. unfold of_number. destruct (int_range z); reflexivity. Qed.

Lemma as_int_py_eq (a : value) (x : Z) :
  as_int a = Some x -> py_eq a (of_number x) = true.
Proof.
  intros H. apply as_int_number in H. unfold of_number.
  destruct a, (int_range x); cbn in *; try discriminate;
    injection H as <-; apply Z.eqb_refl.
Qed.

(** X20.  The instruction set says what separates the snapshot from the
    content: applying the [$set], [$inc] and [$unset] that [changes]
    computed to the snapshot gives a mapping with the keys of the content
    and, at each key, the value of the content or one equal to it by
    [==]. *)
Theorem changes_applied_to_snapshot (d : Document) (raw : dict)
    (c : ChangeSet) (k : string) :
  _raw d = Some raw ->
  raw <> ∅ ->
  changes d = Ok (Some c) ->
  match fields d !! k, apply_update c raw !! k with
  | Some a, Some b => a = b \/ py_eq a b = true
  | None, None => True
  | _, _ => False
  end.
Proof.
  intros Hraw Hne Hc. pose proof (changes_at d raw c k Hraw Hne Hc) as H.
  rewrite apply_update_lookup.
  destruct (fields d !! k) as [a|] eqn:Ha, (raw !! k) as [b|] eqn:Hb.
  - destruct H as [Hun H]. rewrite decide_False by exact Hun.
    destruct (py_eq a b) eqn:He.
    + destruct H as [-> ->]. auto.
    + unfold inc_value in H.
      destruct (as_int a) as [x|] eqn:Hx.
      * destruct (as_int b) as [y|] eqn:Hy.
        -- destruct H as [-> ->].
           rewrite (as_int_number b y Hy). unfold int_sub.
           rewrite number_of_number.
           replace (y + (x - y)) with x by lia.
           right. apply as_int_py_eq. exact Hx.
        -- destruct H as [-> ->]. auto.
      * destruct H as [-> ->]. auto.
  - destruct H as (-> & -> & Hun). rewrite decide_False by exact Hun. auto.
  - destruct H as (_ & _ & Hun). rewrite decide_True by exact Hun. exact I.
  - destruct H as (-> & -> & Hun). rewrite decide_False by exact Hun. exact I.
Qed.

Lemma changes_applied_to_snapshot_witness :
  match fields scenario_doc !! "count",
        apply_update scenario_changeset
          (<["tag" := VStr "x"]> (<["count" := VInt 5]> ∅)) !! "count" with
  | Some a, Some b => a = b \/ py_eq a b = true
  | None, None => True
  | _, _ => False
  end.
Proof.
  apply (changes_applied_to_snapshot scenario_doc
           (<["tag" := VStr "x"]> (<["count" := VInt 5]> ∅))
           scenario_changeset "count").
  - reflexivity.
  - exact scenario_raw_nonempty.
  - vm_compute. reflexivity.
Defined.

(** The scenario, in full: the instructions turn the snapshot into the
    content. *)
Example scenario_applied :
  apply_update scenario_changeset
    (<["tag" := VStr "x"]> (<["count" := VInt 5]> ∅)) = fields scenario_doc.
Proof. vm_compute. reflexivity. Qed.
